(** * Interactive-table hint button: a model of
    [google/colab/_interactive_table_hint_button.py]

    The module keeps two caches of recently displayed dataframes, emits the
    HTML of a conversion button, and installs or removes itself as the
    [text/html] formatter of pandas dataframes in the IPython shell.  The
    Python functions are embedded as functions over an explicit module
    state; exceptions are values, and the state survives them. *)

From Stdlib Require Import Ascii String.
From stdpp Require Import base option list strings gmap fin_maps fin_sets.

#[local] Arguments String.append : simpl nomatch.

(** ** Python strings *)

Module PyStr.

(** The double quote and the line feed, by their codes. *)
Definition dq : string := String (Ascii.ascii_of_nat 34) "".
Definition nl : string := String (Ascii.ascii_of_nat 10) "".

(** [sep.join(l)] *)
Fixpoint join (sep : string) (l : list string) : string :=
  match l with
  | [] => ""
  | [x] => x
  | x :: r => x +:+ sep +:+ join sep r
  end.

(** The lines of a triple-quoted literal. *)
Definition unlines (l : list string) : string := join nl l.

(** [needle in haystack] as a proposition. *)
Definition contains (haystack needle : string) : Prop :=
  ∃ pre post, haystack = pre +:+ needle +:+ post.

(** Exceptions of [str.format]: the two [ValueError]s of a lone brace and
    the [KeyError] of a missing keyword.  [Unsupported] marks
    replacement-field syntax the model leaves out: positional fields,
    attribute and index lookups, conversions and format specifications. *)
Inductive format_error :=
| SingleOpenBrace
| SingleCloseBrace
| MissingKeyword (name : string)
| Unsupported (field : string).

(** What [string.Formatter.parse] yields: runs of literal text, with
    the escapes [{{] and [}}] already resolved, and replacement fields. *)
Inductive piece :=
| Lit (text : string)
| Field (name : string).

(** Apply [f] to the result of a scan or rendering that did not raise. *)
Definition on_ok {A B} (f : A → B) (r : format_error + A) : format_error + B :=
  match r with
  | inl e => inl e
  | inr a => inr (f a)
  end.

Definition cons_char (c : ascii) (ps : list piece) : list piece :=
  match ps with
  | Lit s :: r => Lit (String c s) :: r
  | _ => Lit (String c "") :: ps
  end.

Definition is_open (c : ascii) : bool := Ascii.eqb c "{".
Definition is_close (c : ascii) : bool := Ascii.eqb c "}".

(** Characters that start an attribute, an index, a conversion, a format
    specification or a nested field inside a replacement field. *)
Definition is_field_syntax (c : ascii) : bool :=
  Ascii.eqb c "." || Ascii.eqb c "[" || Ascii.eqb c "!" ||
  Ascii.eqb c ":" || Ascii.eqb c "{".

Definition is_digit (c : ascii) : bool :=
  (48 <=? Ascii.nat_of_ascii c)%nat && (Ascii.nat_of_ascii c <=? 57)%nat.

(** A field the model covers is a keyword: not empty (automatic
    numbering) and not starting with a digit (an explicit position). *)
Definition keyword_field (name : string) : bool :=
  match name with
  | "" => false
  | String c _ => negb (is_digit c)
  end.

(** The scanner.  [fld] is [None] in literal text and [Some acc] inside
    a replacement field whose name so far is [acc]. *)
Fixpoint parse_from (fld : option string) (s : string)
  : format_error + list piece :=
  match fld with
  | None =>
      match s with
      | "" => inr []
      | String c r =>
          if is_open c then
            match r with
            | "" => inl SingleOpenBrace
            | String c' r' =>
                if is_open c' then on_ok (cons_char c) (parse_from None r')
                else parse_from (Some "") r
            end
          else if is_close c then
            match r with
            | "" => inl SingleCloseBrace
            | String c' r' =>
                if is_close c' then on_ok (cons_char c) (parse_from None r')
                else inl SingleCloseBrace
            end
          else on_ok (cons_char c) (parse_from None r)
      end
  | Some acc =>
      match s with
      | "" => inl SingleOpenBrace
      | String c r =>
          if is_close c then
            if keyword_field acc
            then on_ok (cons (Field acc)) (parse_from None r)
            else inl (Unsupported acc)
          else if is_field_syntax c then inl (Unsupported (acc +:+ String c ""))
          else parse_from (Some (acc +:+ String c "")) r
      end
  end.

Definition parse : string → format_error + list piece := parse_from None.

(** Keyword arguments, in call order. *)
Definition kwargs := list (string * string).

Fixpoint kwarg (name : string) (kw : kwargs) : option string :=
  match kw with
  | [] => None
  | (k, v) :: r => if String.eqb k name then Some v else kwarg name r
  end.

Fixpoint render (kw : kwargs) (ps : list piece) : format_error + string :=
  match ps with
  | [] => inr ""
  | Lit s :: r => on_ok (String.append s) (render kw r)
  | Field n :: r =>
      match kwarg n kw with
      | None => inl (MissingKeyword n)
      | Some v => on_ok (String.append v) (render kw r)
      end
  end.

(** [str.format] called on [template] with the keyword arguments [kw]. *)
Definition format (template : string) (kw : kwargs) : format_error + string :=
  match parse template with
  | inl e => inl e
  | inr ps => render kw ps
  end.

End PyStr.
Import PyStr.

(** ** The string constants of the module

    Each is the source's triple-quoted literal, one list element per line. *)

Definition _ICON_SVG : string := unlines [
  "";
  "  <svg xmlns=" +:+ dq +:+ "http://www.w3.org/2000/svg" +:+ dq +:+ " height=" +:+ dq +:+ "24px" +:+ dq +:+ " viewBox=" +:+ dq +:+ "0 -960 960 960" +:+ dq +:+ ">";
  "    <path d=" +:+ dq +:+ "M120-120v-720h720v720H120Zm60-500h600v-160H180v160Zm220 220h160v-160H400v160Zm0 220h160v-160H400v160ZM180-400h160v-160H180v160Zm440 0h160v-160H620v160ZM180-180h160v-160H180v160Zm440 0h160v-160H620v160Z" +:+ dq +:+ "/>";
  "  </svg>"
].

Definition _HINT_BUTTON_CSS : string := unlines [
  "";
  "  <style>";
  "    .colab-df-container {";
  "      display:flex;";
  "      gap: 12px;";
  "    }";
  "";
  "    .colab-df-convert {";
  "      background-color: #E8F0FE;";
  "      border: none;";
  "      border-radius: 50%;";
  "      cursor: pointer;";
  "      display: none;";
  "      fill: #1967D2;";
  "      height: 32px;";
  "      padding: 0 0 0 0;";
  "      width: 32px;";
  "    }";
  "";
  "    .colab-df-convert:hover {";
  "      background-color: #E2EBFA;";
  "      box-shadow: 0px 1px 2px rgba(60, 64, 67, 0.3), 0px 1px 3px 1px rgba(60, 64, 67, 0.15);";
  "      fill: #174EA6;";
  "    }";
  "";
  "    .colab-df-buttons div {";
  "      margin-bottom: 4px;";
  "    }";
  "";
  "    [theme=dark] .colab-df-convert {";
  "      background-color: #3B4455;";
  "      fill: #D2E3FC;";
  "    }";
  "";
  "    [theme=dark] .colab-df-convert:hover {";
  "      background-color: #434B5C;";
  "      box-shadow: 0px 1px 3px 1px rgba(0, 0, 0, 0.15);";
  "      filter: drop-shadow(0px 1px 2px rgba(0, 0, 0, 0.3));";
  "      fill: #FFFFFF;";
  "    }";
  "  </style>";
  ""
].

(** The literal that [_get_button_html] formats. *)
Definition _get_button_html_template : string := unlines [
  "";
  "  <div class=" +:+ dq +:+ "colab-df-container" +:+ dq +:+ ">";
  "    <button class=" +:+ dq +:+ "colab-df-convert" +:+ dq +:+ " onclick=" +:+ dq +:+ "convertToInteractive('{key}')" +:+ dq;
  "            title=" +:+ dq +:+ "Convert this dataframe to an interactive table." +:+ dq;
  "            style=" +:+ dq +:+ "display:none;" +:+ dq +:+ ">";
  "      {icon}";
  "    </button>";
  "    {css}";
  "    <script>";
  "      const buttonEl =";
  "        document.querySelector('#{key} button.colab-df-convert');";
  "      buttonEl.style.display =";
  "        google.colab.kernel.accessAllowed ? 'block' : 'none';";
  "";
  "      async function convertToInteractive(key) {{";
  "        const element = document.querySelector('#{key}');";
  "        const dataTable =";
  "          await google.colab.kernel.invokeFunction('convertToInteractive',";
  "                                                    [key], {{}});";
  "        if (!dataTable) return;";
  "";
  "        const docLinkHtml = 'Like what you see? Visit the ' +";
  "          '<a target=" +:+ dq +:+ "_blank" +:+ dq +:+ " href={data_table_url}>data table notebook</a>'";
  "          + ' to learn more about interactive tables.';";
  "        element.innerHTML = '';";
  "        dataTable['output_type'] = 'display_data';";
  "        await google.colab.output.renderOutput(dataTable, element);";
  "        const docLink = document.createElement('div');";
  "        docLink.innerHTML = docLinkHtml;";
  "        element.appendChild(docLink);";
  "      }}";
  "    </script>";
  "  </div>";
  "  "
].

(** The literal that [_get_html] formats. *)
Definition _get_html_template : string := unlines [
  "";
  "  <div id=" +:+ dq +:+ "{key}" +:+ dq +:+ " class=" +:+ dq +:+ "colab-df-container" +:+ dq +:+ ">";
  "    {df_html}";
  "    <div class=" +:+ dq +:+ "colab-df-buttons" +:+ dq +:+ ">";
  "      {buttons_str}";
  "    </div>";
  "  </div>";
  "  "
].


(** ** Python dictionaries

    A [dict] keeps its keys in insertion order, and
    [_get_last_dataframe_key] reads the first one, so the single-entry
    cache is an association list.  The other dictionaries of the module
    are only looked up by key and are finite maps. *)

Module PyDict.

Abbreviation dict V := (list (string * V)).

(** [key in d] *)
Definition contains {V} (key : string) (d : dict V) : bool :=
  existsb (λ kv, String.eqb (fst kv) key) d.

(** [d.get(key)] *)
Fixpoint get {V} (key : string) (d : dict V) : option V :=
  match d with
  | [] => None
  | (k, v) :: r => if String.eqb k key then Some v else get key r
  end.

(** What [d.pop(key)] leaves in [d]. *)
Definition remove {V} (key : string) (d : dict V) : dict V :=
  filter (λ kv, fst kv ≠ key) d.

(** [d[key] = v]: a present key keeps its place, a new one goes last. *)
Fixpoint set {V} (key : string) (v : V) (d : dict V) : dict V :=
  match d with
  | [] => [(key, v)]
  | (k, w) :: r => if String.eqb k key then (k, v) :: r else (k, w) :: set key v r
  end.

(** [list(d.keys())] *)
Definition keys {V} (d : dict V) : list string := map fst d.

(** [list(d.values())] *)
Definition values {V} (d : dict V) : list V := map snd d.

End PyDict.

(** ** Objects and the module state *)

(** The identity of a Python object, [id(obj)]. *)
Definition oid := positive.

(** A pandas dataframe, as far as this module looks at one: the data it
    holds, named by the handle of its block manager, and the string its
    [_repr_html_] method returns.  [copy(deep=False)] makes a new object
    over the same data. *)
Record DataFrame := mkDataFrame {
  df_data : positive;
  df_html : string
}.

(** Modelled from the spec: [google.colab.data_table.DataTable], the
    interactive renderer of the sibling module, whose source is not in
    this file.  [DataTable(df)] is taken as the object that wraps the
    dataframe it was built from. *)
Inductive DataTable := mkDataTable (dataframe : oid).

(** The functions that are handed to the host as callbacks: the two of
    this module, and those of anyone else. *)
Inductive Callable :=
| Fn_df_formatter_with_interactive_hint
| Fn_convert_to_interactive
| Foreign (n : nat).

(** Modelled from the spec: [google.colab.output.register_callback], the
    host's registration of a callback under a name, whose source is not in
    this file.  What [register_callback(name, fn)] hands back is taken as
    a record of the registration; the module stores it and never reads
    it. *)
Record Registration := mkRegistration {
  reg_name : string;
  reg_callback : Callable
}.

(** An IPython formatter ([shell.display_formatter.formatters[mime]], a
    [BaseFormatter]) as its two registries of printers: [type_printers],
    keyed by class, and [deferred_printers], keyed by the module and the
    name of a class.  A class is named by its dotted name, so both are
    maps from dotted names. *)
Record BaseFormatter := mkBaseFormatter {
  type_printers : gmap string Callable;
  deferred_printers : gmap string Callable
}.

Record Shell := mkShell {
  formatters : gmap string BaseFormatter
}.

Record State := mkState {
  (** live dataframe objects *)
  heap : gmap oid DataFrame;
  (** [weakref.WeakValueDictionary()]: key to a live object *)
  _noninteractive_df_refs : gmap string oid;
  (** single-entry cache of a shallow copy of the last printed dataframe *)
  _last_noninteractive_df : PyDict.dict oid;
  _output_callbacks : gmap string Registration;
  (** values may be Python's [None] *)
  _original_formatters : gmap string (option Callable);
  (** [IPython.get_ipython()], [None] outside a notebook *)
  shell : option Shell;
  (** what [print] wrote, oldest first *)
  stdout : list string
}.

Definition initial : State :=
  mkState ∅ ∅ [] ∅ ∅ None [].

#[global] Instance DataFrame_eq_dec : EqDecision DataFrame.
Proof. solve_decision. Defined.
#[global] Instance DataTable_eq_dec : EqDecision DataTable.
Proof. solve_decision. Defined.
#[global] Instance Callable_eq_dec : EqDecision Callable.
Proof. solve_decision. Defined.

Definition set_heap (f : gmap oid DataFrame → gmap oid DataFrame) (s : State) : State :=
  mkState (f (heap s)) (_noninteractive_df_refs s) (_last_noninteractive_df s)
    (_output_callbacks s) (_original_formatters s) (shell s) (stdout s).
Definition set_refs (f : gmap string oid → gmap string oid) (s : State) : State :=
  mkState (heap s) (f (_noninteractive_df_refs s)) (_last_noninteractive_df s)
    (_output_callbacks s) (_original_formatters s) (shell s) (stdout s).
Definition set_last (f : PyDict.dict oid → PyDict.dict oid) (s : State) : State :=
  mkState (heap s) (_noninteractive_df_refs s) (f (_last_noninteractive_df s))
    (_output_callbacks s) (_original_formatters s) (shell s) (stdout s).
Definition set_callbacks (f : gmap string Registration → gmap string Registration)
    (s : State) : State :=
  mkState (heap s) (_noninteractive_df_refs s) (_last_noninteractive_df s)
    (f (_output_callbacks s)) (_original_formatters s) (shell s) (stdout s).
Definition set_originals
    (f : gmap string (option Callable) → gmap string (option Callable))
    (s : State) : State :=
  mkState (heap s) (_noninteractive_df_refs s) (_last_noninteractive_df s)
    (_output_callbacks s) (f (_original_formatters s)) (shell s) (stdout s).
Definition set_shell (f : option Shell → option Shell) (s : State) : State :=
  mkState (heap s) (_noninteractive_df_refs s) (_last_noninteractive_df s)
    (_output_callbacks s) (_original_formatters s) (f (shell s)) (stdout s).
Definition set_stdout (f : list string → list string) (s : State) : State :=
  mkState (heap s) (_noninteractive_df_refs s) (_last_noninteractive_df s)
    (_output_callbacks s) (_original_formatters s) (shell s) (f (stdout s)).

(** ** Computations: state that survives an exception *)

Inductive exn :=
| FormatError (e : format_error)
| KeyError (key : string)
| AttributeError (name : string)
(** a reference to no object: no Python value is one, the model's
    arguments can be *)
| DanglingReference (o : oid).

Inductive outcome (A : Type) :=
| Return (a : A)
| Raise (e : exn).
Arguments Return {A} a.
Arguments Raise {A} e.

Definition M (A : Type) : Type := State → outcome A * State.

#[global] Instance M_ret : MRet M := λ A a s, (Return a, s).
#[global] Instance M_bind : MBind M := λ A B f m s,
  match m s with
  | (Return a, s') => f a s'
  | (Raise e, s') => (Raise e, s')
  end.

Definition get_state : M State := λ s, (Return s, s).
Definition modify (f : State → State) : M unit := λ s, (Return tt, f s).
Definition raise {A} (e : exn) : M A := λ s, (Raise e, s).
Definition lift_format {A} (r : format_error + A) : M A :=
  match r with
  | inl e => raise (FormatError e)
  | inr a => mret a
  end.

(** [print(line)] *)
Definition print (line : string) : M unit :=
  modify (set_stdout (λ out, out ++ [line])).

(** ** The host: pandas, the garbage collector, IPython *)

(** [dataframe.copy(deep=False)]: a new object over the same data. *)
Definition copy_shallow (dataframe : oid) : M oid := λ s,
  match heap s !! dataframe with
  | None => (Raise (DanglingReference dataframe), s)
  | Some d =>
      let c := fresh (dom (heap s)) in
      (Return c, set_heap <[c := d]> s)
  end.

(** [dataframe._repr_html_()] *)
Definition _repr_html_ (dataframe : oid) : M string := λ s,
  match heap s !! dataframe with
  | None => (Raise (DanglingReference dataframe), s)
  | Some d => (Return (df_html d), s)
  end.

(** The objects the module itself keeps alive: the values of the
    single-entry cache.  The weak-value cache keeps nothing alive. *)
Definition strongly_held (s : State) : gset oid :=
  list_to_set (PyDict.values (_last_noninteractive_df s)).

(** A garbage collection that finds the objects of [dead] unreferenced
    outside this module: those the module does not hold are freed, and
    the weak-value cache loses every entry whose object went. *)
Definition collect (dead : gset oid) (s : State) : State :=
  let freed := dead ∖ strongly_held s in
  set_refs (filter (λ kv, snd kv ∉ freed))
    (set_heap (filter (λ kv, fst kv ∉ freed)) s).

(** The user creates a dataframe. *)
Definition new_dataframe (d : DataFrame) : M oid := λ s,
  let o := fresh (dom (heap s)) in
  (Return o, set_heap <[o := d]> s).

Module IPython.

(** [BaseFormatter.lookup_by_type(typ)] for a string [typ]: the deferred
    printer of that name, or else the printer of the class of that name
    in [type_printers]; [None] stands for the [KeyError]. *)
Definition lookup_by_type_name (typ : string) (f : BaseFormatter)
  : option Callable :=
  match deferred_printers f !! typ with
  | Some printer => Some printer
  | None => type_printers f !! typ
  end.

(** [BaseFormatter._in_deferred_types(cls)]: a deferred printer for the
    class moves over to [type_printers]. *)
Definition _in_deferred_types (cls : string) (f : BaseFormatter)
  : bool * BaseFormatter :=
  match deferred_printers f !! cls with
  | Some printer =>
      (true,
       mkBaseFormatter (<[cls := printer]> (type_printers f))
         (delete cls (deferred_printers f)))
  | None => (false, f)
  end.

(** [BaseFormatter.lookup_by_type(typ)] for a class [typ], given its
    method resolution order: the printer of the first class of the order
    that has one, in [type_printers] or deferred; [None] stands for the
    [KeyError]. *)
Fixpoint lookup_by_type_class (mro : list string) (f : BaseFormatter)
  : option Callable * BaseFormatter :=
  match mro with
  | [] => (None, f)
  | cls :: rest =>
      match type_printers f !! cls with
      | Some printer => (Some printer, f)
      | None =>
          let '(found, f') := _in_deferred_types cls f in
          if found then (type_printers f' !! cls, f')
          else lookup_by_type_class rest f'
      end
  end.

(** [BaseFormatter.for_type_by_name(type_module, type_name, func)]:
    returns what the look-up by name finds, [None] if nothing, and
    registers [func] as a deferred printer unless it is [None]. *)
Definition for_type_by_name (type_module type_name : string)
    (func : option Callable) (f : BaseFormatter)
  : option Callable * BaseFormatter :=
  let key := type_module +:+ "." +:+ type_name in
  let oldfunc := lookup_by_type_name key f in
  (oldfunc,
   match func with
   | Some fn =>
       mkBaseFormatter (type_printers f) (<[key := fn]> (deferred_printers f))
   | None => f
   end).

(** [BaseFormatter.pop(typ, None)] for a string [typ]: removes and
    returns the deferred printer of that name if there is one, or else
    the printer of the class of that name in [type_printers]; [None] if
    there is neither. *)
Definition pop (typ : string) (f : BaseFormatter)
  : option Callable * BaseFormatter :=
  match deferred_printers f !! typ with
  | Some old =>
      (Some old,
       mkBaseFormatter (type_printers f) (delete typ (deferred_printers f)))
  | None =>
      (type_printers f !! typ,
       mkBaseFormatter (delete typ (type_printers f)) (deferred_printers f))
  end.

End IPython.

(** [shell.display_formatter.formatters[mime]], with [shell] the running
    shell. *)
Definition get_formatter (mime : string) : M BaseFormatter := λ s,
  match shell s with
  | None => (Raise (AttributeError "display_formatter"), s)
  | Some sh =>
      match formatters sh !! mime with
      | None => (Raise (KeyError mime), s)
      | Some f => (Return f, s)
      end
  end.

(** A method call on that formatter object, which changes it in place. *)
Definition call_formatter {A} (mime : string)
    (method : BaseFormatter → A * BaseFormatter) : M A :=
  f ← get_formatter mime;
  let '(a, f') := method f in
  modify (set_shell (fmap (λ sh, mkShell (<[mime := f']> (formatters sh)))));;
  mret a.


(** ** The module *)

(** [_noninteractive_df_refs[key] = dataframe]: a weak reference to a
    live object. *)
Definition refs_setitem (key : string) (dataframe : oid) : M unit := λ s,
  match heap s !! dataframe with
  | None => (Raise (DanglingReference dataframe), s)
  | Some _ => (Return tt, set_refs <[key := dataframe]> s)
  end.

(** [d.pop(key)] on the two caches and on [_original_formatters]. *)
Definition last_pop (key : string) : M oid := λ s,
  match PyDict.get key (_last_noninteractive_df s) with
  | None => (Raise (KeyError key), s)
  | Some o => (Return o, set_last (PyDict.remove key) s)
  end.

Definition refs_pop (key : string) : M oid := λ s,
  match _noninteractive_df_refs s !! key with
  | None => (Raise (KeyError key), s)
  | Some o => (Return o, set_refs (delete key) s)
  end.

Definition originals_pop (key : string) : M (option Callable) := λ s,
  match _original_formatters s !! key with
  | None => (Raise (KeyError key), s)
  | Some f => (Return f, set_originals (delete key) s)
  end.

Definition no_reference_message : string :=
  "Error: Runtime no longer has a reference to this dataframe, please"
  +:+ " re-run this cell and try again.".

Definition _get_dataframe (key : string) : M (option oid) :=
  s ← get_state;
  if PyDict.contains key (_last_noninteractive_df s) then
    df ← last_pop key; mret (Some df)
  else if bool_decide (key ∈ dom (_noninteractive_df_refs s)) then
    df ← refs_pop key; mret (Some df)
  else
    print no_reference_message;;
    mret None.

(** Converts a stored df into a data table if we still hold a ref to it. *)
Definition _convert_to_interactive (key : string) : M (option DataTable) :=
  df ← _get_dataframe key;
  match df with
  | Some df => mret (Some (mkDataTable df))
  | None => mret None
  end.

Definition _get_last_dataframe_key : M (option string) :=
  s ← get_state;
  let df_keys := PyDict.keys (_last_noninteractive_df s) in
  match df_keys with
  | k :: _ => mret (Some k)
  | [] => mret None
  end.

Section Templates.

(** [_data_table._DATA_TABLE_HELP_URL], a constant of the sibling module
    [google.colab.data_table]. *)
Variable _DATA_TABLE_HELP_URL : string.

Definition _get_button_html (key : string) : format_error + string :=
  format _get_button_html_template
    [("css", _HINT_BUTTON_CSS);
     ("data_table_url", _DATA_TABLE_HELP_URL);
     ("icon", _ICON_SVG);
     ("key", key)].

Definition _get_html (dataframe : oid) (key : string) (buttons : list string)
  : M string :=
  let buttons_str := join nl buttons in
  df_html ← _repr_html_ dataframe;
  lift_format
    (format _get_html_template
       [("key", key); ("df_html", df_html); ("buttons_str", buttons_str)]).

(** Alternate df formatter that includes a button to convert to
    interactive.  [uuid4] is what [str(uuid.uuid4())] returns in this
    call.  [buttons] is [None] or the caller's list; the second result is
    that list after the call, which inserts into it when it is not
    empty. *)
Definition _df_formatter_with_interactive_hint (uuid4 : string)
    (dataframe : oid) (buttons : option (list string))
  : M (string * option (list string)) :=
  let key := "df-" +:+ uuid4 in
  refs_setitem key dataframe;;
  (* Ensure our last value cache only contains one item. *)
  modify (set_last (λ _, []));;
  copy ← copy_shallow dataframe;
  modify (set_last (PyDict.set key copy));;
  let convert_func := "convertToInteractive" in
  s ← get_state;
  (if bool_decide (convert_func ∈ dom (_output_callbacks s)) then mret tt
   else modify (set_callbacks
                  <[convert_func := mkRegistration convert_func Fn_convert_to_interactive]>));;
  button ← lift_format (_get_button_html key);
  match buttons with
  | Some (b :: bs) =>
      let buttons := button :: b :: bs in
      html ← _get_html dataframe key buttons;
      mret (html, Some buttons)
  | _ =>
      let fresh_buttons := [button] in
      html ← _get_html dataframe key fresh_buttons;
      mret (html, buttons)
  end.

End Templates.

(** Formatter that surfaces the existence of interactive tables to user. *)
Definition _enable_df_interactive_hint_formatter : M unit :=
  s ← get_state;
  match shell s with
  | None => mret tt
  | Some _ =>
      let key := "text/html" in
      if bool_decide (key ∈ dom (_original_formatters s)) then mret tt
      else
        old ← call_formatter key
          (IPython.for_type_by_name "pandas.core.frame" "DataFrame"
             (Some Fn_df_formatter_with_interactive_hint));
        modify (set_originals <[key := old]>)
  end.

(** Restores the original html formatter for Pandas DataFrames. *)
Definition _disable_df_interactive_hint_formatter : M unit :=
  s ← get_state;
  match shell s with
  | None => mret tt
  | Some _ =>
      let key := "text/html" in
      if bool_decide (key ∈ dom (_original_formatters s)) then
        call_formatter key (IPython.pop "pandas.core.frame.DataFrame");;
        get_formatter key;;
        saved ← originals_pop key;
        call_formatter key
          (IPython.for_type_by_name "pandas.core.frame" "DataFrame" saved);;
        mret tt
      else mret tt
  end.


(** ** Call sequences

    What can happen to the module between two moments: calls of its
    functions, and the host creating dataframes and collecting garbage. *)

Inductive call :=
| Call_df_formatter (uuid4 : string) (dataframe : oid) (buttons : option (list string))
| Call_convert_to_interactive (key : string)
| Call_get_dataframe (key : string)
| Call_get_last_dataframe_key
| Call_enable
| Call_disable
| Host_collect (dead : gset oid)
| Host_new_dataframe (d : DataFrame).

(** The state a call leaves, whether it returned or raised. *)
Definition exec (url : string) (c : call) (s : State) : State :=
  match c with
  | Call_df_formatter uuid4 df buttons =>
      snd (_df_formatter_with_interactive_hint url uuid4 df buttons s)
  | Call_convert_to_interactive key => snd (_convert_to_interactive key s)
  | Call_get_dataframe key => snd (_get_dataframe key s)
  | Call_get_last_dataframe_key => snd (_get_last_dataframe_key s)
  | Call_enable => snd (_enable_df_interactive_hint_formatter s)
  | Call_disable => snd (_disable_df_interactive_hint_formatter s)
  | Host_collect dead => collect dead s
  | Host_new_dataframe d => snd (new_dataframe d s)
  end.

Definition run (url : string) (calls : list call) (s : State) : State :=
  foldl (λ s c, exec url c s) s calls.

Definition is_format (c : call) : bool :=
  match c with
  | Call_df_formatter _ _ _ => true
  | _ => false
  end.

(** Whether the call retrieves a dataframe under [key]. *)
Definition retrieves (key : string) (c : call) (s : State) : bool :=
  match c with
  | Call_convert_to_interactive k =>
      bool_decide (k = key) &&
      match fst (_convert_to_interactive k s) with
      | Return (Some _) => true
      | _ => false
      end
  | Call_get_dataframe k =>
      bool_decide (k = key) &&
      match fst (_get_dataframe k s) with
      | Return (Some _) => true
      | _ => false
      end
  | _ => false
  end.

(** How many calls of the sequence retrieve a dataframe under [key]. *)
Fixpoint retrievals (url key : string) (calls : list call) (s : State) : nat :=
  match calls with
  | [] => 0
  | c :: r =>
      (if retrieves key c s then 1 else 0) + retrievals url key r (exec url c s)
  end.

(** Calls that neither format nor retrieve. *)
Definition is_idle (c : call) : bool :=
  match c with
  | Call_df_formatter _ _ _ | Call_convert_to_interactive _ | Call_get_dataframe _ => false
  | _ => true
  end.


(** ** Runs of a template

    To say that a text is part of what [str.format] returns, templates
    are compared piece by piece, a piece being one character or one
    field. *)

#[global] Instance piece_eq_dec : EqDecision piece.
Proof. solve_decision. Defined.

Fixpoint chars (s : string) : list piece :=
  match s with
  | "" => []
  | String c r => Lit (String c "") :: chars r
  end.

Definition flat (ps : list piece) : list piece :=
  ps ≫= (λ p, match p with Lit s => chars s | Field n => [Field n] end).

Fixpoint starts_with (pat l : list piece) : bool :=
  match pat, l with
  | [], _ => true
  | p :: pat', x :: l' => bool_decide (p = x) && starts_with pat' l'
  | _ :: _, [] => false
  end.

(** [pat] occurs in [l] as a run of consecutive elements. *)
Fixpoint occurs (pat l : list piece) : bool :=
  starts_with pat l ||
  match l with
  | [] => false
  | _ :: l' => occurs pat l'
  end.

(** The two templates, scanned. *)
Definition button_pieces : list piece :=
  Eval vm_compute in
    match parse _get_button_html_template with inr ps => ps | inl _ => [] end.

Definition html_pieces : list piece :=
  Eval vm_compute in
    match parse _get_html_template with inr ps => ps | inl _ => [] end.

(** ** Parts of the emitted HTML *)

(** The opening tag of the container that [_get_html] emits for [key]. *)
Definition container_open (key : string) : string :=
  "<div id=" +:+ dq +:+ key +:+ dq +:+ " class=" +:+ dq +:+ "colab-df-container" +:+ dq +:+ ">".

(** The click handler of the button that [_get_button_html] emits for [key]. *)
Definition onclick_attr (key : string) : string :=
  "onclick=" +:+ dq +:+ "convertToInteractive('" +:+ key +:+ "')" +:+ dq.

(** The script's call of the host bridge, with the callback's name. *)
Definition invoke_call : string :=
  "await google.colab.kernel.invokeFunction('convertToInteractive'," +:+ nl +:+
  "                                                    [key], {});".

(** The script's rendering of what the callback returned. *)
Definition render_call : string :=
  "await google.colab.output.renderOutput(dataTable, element);".

(** The script's look-up of the container of [key]. *)
Definition container_query (key : string) : string :=
  "const element = document.querySelector('#" +:+ key +:+ "');".

(** ** The effect of the formatter, spelled out *)

(** The list that reaches [_get_html], given the caller's and the button. *)
Definition buttons_passed (buttons : option (list string)) (button : string)
  : list string :=
  button :: default [] buttons.

(** The caller's list after the call. *)
Definition buttons_left (buttons : option (list string)) (button : string)
  : option (list string) :=
  match buttons with
  | Some (b :: bs) => Some (button :: b :: bs)
  | _ => buttons
  end.

(** The object that [copy(deep=False)] makes in state [s]. *)
Definition copy_of (s : State) : oid := fresh (dom (heap s)).

(** The state after formatting the dataframe [dataframe], whose value is
    [d], under [key]. *)
Definition formatted (key : string) (dataframe : oid) (d : DataFrame) (s : State)
  : State :=
  set_callbacks
    (λ cbs, if bool_decide ("convertToInteractive" ∈ dom cbs) then cbs
            else <["convertToInteractive" :=
                     mkRegistration "convertToInteractive" Fn_convert_to_interactive]> cbs)
    (set_last (λ _, [(key, copy_of s)])
       (set_heap <[copy_of s := d]> (set_refs <[key := dataframe]> s))).

(** In how many of the two caches [key] is present. *)
Definition cached (key : string) (s : State) : nat :=
  Nat.b2n (PyDict.contains key (_last_noninteractive_df s)) +
  Nat.b2n (bool_decide (key ∈ dom (_noninteractive_df_refs s))).

(** The shell's [text/html] formatter. *)
Definition html_formatter (s : State) : option BaseFormatter :=
  sh ← shell s; formatters sh !! "text/html".

(** The printer registered for dataframes by name: what
    [for_type_by_name] finds and returns as the old one. *)
Definition registered_printer (s : State) : option Callable :=
  f ← html_formatter s;
  IPython.lookup_by_type_name "pandas.core.frame.DataFrame" f.

(** The printer a display of a dataframe finds. *)
Definition effective_printer (bases : list string) (s : State) : option Callable :=
  f ← html_formatter s;
  fst (IPython.lookup_by_type_class ("pandas.core.frame.DataFrame" :: bases) f).

(** [n] calls of [_enable_df_interactive_hint_formatter] in a row. *)
Definition enable_times (n : nat) (s : State) : State :=
  Nat.iter n (λ s, snd (_enable_df_interactive_hint_formatter s)) s.

(** The state [s] with [f] as the shell's [text/html] formatter. *)
Definition with_html_formatter (f : BaseFormatter) (s : State) : State :=
  set_shell (fmap (λ sh, mkShell (<["text/html" := f]> (formatters sh)))) s.

(** The formatter [f] with the hint formatter registered by name, and
    with that registration moved over to [type_printers] by a display. *)
Definition hint_deferred (f : BaseFormatter) : BaseFormatter :=
  mkBaseFormatter (type_printers f)
    (<["pandas.core.frame.DataFrame" := Fn_df_formatter_with_interactive_hint]>
       (deferred_printers f)).


(** The state after enabling from [s], whose [text/html] formatter was
    [f] and is [f'] by now. *)
Definition enabled_as (f f' : BaseFormatter) (s : State) : State :=
  set_originals
    <["text/html" := IPython.lookup_by_type_name "pandas.core.frame.DataFrame" f]>
    (with_html_formatter f' s).

(** The state after an enabling call that found the shell's [text/html]
    formatter [f] and nothing saved. *)
Definition enabled (f : BaseFormatter) (s : State) : State :=
  enabled_as f (hint_deferred f) s.

(** What a disabling call that finds the saved printer [saved] makes of
    the formatter [f]. *)
Definition restored (saved : option Callable) (f : BaseFormatter) : BaseFormatter :=
  snd (IPython.for_type_by_name "pandas.core.frame" "DataFrame" saved
         (snd (IPython.pop "pandas.core.frame.DataFrame" f))).

(** The state after a disabling call that found the formatter [f] and the
    saved printer [saved]. *)
Definition disabled (f : BaseFormatter) (saved : option Callable) (s : State)
  : State :=
  with_html_formatter (restored saved f) (set_originals (delete "text/html") s).

(** The formatter [f] after enabling, displays and a disabling: its
    [type_printers] as they were, and the printer that was registered by
    name as the deferred one. *)
Definition round_trip (f : BaseFormatter) : BaseFormatter :=
  mkBaseFormatter (type_printers f)
    match IPython.lookup_by_type_name "pandas.core.frame.DataFrame" f with
    | Some fn =>
        <["pandas.core.frame.DataFrame" := fn]>
          (delete "pandas.core.frame.DataFrame" (deferred_printers f))
    | None => delete "pandas.core.frame.DataFrame" (deferred_printers f)
    end.






(** ** A small notebook session

    One dataframe, displayed once; and a shell whose [text/html] formatter
    already has a printer for the class of dataframes. *)

Definition demo_frame : DataFrame := mkDataFrame 7 "<table>t</table>".

Definition demo : State := snd (new_dataframe demo_frame initial).

Definition demo_url : string := "https://example.org/data_table".

Definition demo_formatted : State :=
  snd (_df_formatter_with_interactive_hint demo_url "1234" 1%positive None demo).

Definition demo_between : list call :=
  [Host_collect {[1%positive; 2%positive]}; Call_get_last_dataframe_key;
   Host_new_dataframe demo_frame; Call_enable].

Definition demo_retrievals : list call :=
  [Call_get_dataframe "df-1234"; Host_collect ∅;
   Call_convert_to_interactive "df-1234"; Call_get_dataframe "df-1234"].

Definition demo_formatter : BaseFormatter :=
  mkBaseFormatter {["pandas.core.frame.DataFrame" := Foreign 1]} ∅.

Definition demo_shell : Shell := mkShell {["text/html" := demo_formatter]}.

Definition demo_notebook : State := set_shell (λ _, Some demo_shell) initial.

(** ** Liveness of what the caches hold *)

(** Every object the two caches refer to is alive. *)
Definition caches_live (s : State) : Prop :=
  (∀ k o, _noninteractive_df_refs s !! k = Some o → is_Some (heap s !! o)) ∧
  (∀ o, o ∈ PyDict.values (_last_noninteractive_df s) → is_Some (heap s !! o)).

(** The one registration the module ever makes with the host. *)
Definition hint_callbacks : gmap string Registration :=
  {["convertToInteractive" :=
      mkRegistration "convertToInteractive" Fn_convert_to_interactive]}.

(** The printers the shell's formatter for [mime] has for the type
    [typ]: the one in [type_printers] and the deferred one. *)
Definition printer_of (s : State) (mime typ : string)
  : option (option Callable * option Callable) :=
  sh ← shell s;
  f ← formatters sh !! mime;
  Some (type_printers f !! typ, deferred_printers f !! typ).

(** * Strings and [str.format] *)

Section StringFacts.

Lemma append_nil_r (s : string) : s +:+ "" = s.
Proof. induction s as [|c s IH]; simpl; [done | by rewrite IH]. Qed.

Lemma append_assoc (a b c : string) : (a +:+ b) +:+ c = a +:+ b +:+ c.
Proof. induction a as [|x a IH]; simpl; [done | by rewrite IH]. Qed.

Lemma contains_refl (s : string) : contains s s.
Proof. exists "", "". simpl. by rewrite append_nil_r. Qed.

Lemma contains_trans (a b c : string) :
  contains a b → contains b c → contains a c.
Proof.
  intros (p1 & q1 & ->) (p2 & q2 & ->).
  exists (p1 +:+ p2), (q2 +:+ q1). by rewrite !append_assoc.
Qed.

Lemma contains_app_l (a b n : string) : contains a n → contains (a +:+ b) n.
Proof.
  intros (p & q & ->). exists p, (q +:+ b). by rewrite !append_assoc.
Qed.

Lemma contains_app_r (a b n : string) : contains b n → contains (a +:+ b) n.
Proof.
  intros (p & q & ->). exists (a +:+ p), q. by rewrite !append_assoc.
Qed.

Lemma contains_join_head (sep x : string) (l : list string) :
  contains (join sep (x :: l)) x.
Proof.
  destruct l as [|y l]; simpl; [apply contains_refl |].
  apply contains_app_l, contains_refl.
Qed.

Lemma join_cons (sep x y : string) (l : list string) :
  join sep (x :: y :: l) = x +:+ sep +:+ join sep (y :: l).
Proof. done. Qed.

End StringFacts.

Section RenderFacts.


Lemma starts_with_sound pat l :
  starts_with pat l = true → ∃ r, l = pat ++ r.
Proof.
  revert l. induction pat as [|p pat IH]; intros l H; simpl in H.
  - by exists l.
  - destruct l as [|x l]; [done |].
    apply andb_true_iff in H as [Hp Hr].
    apply bool_decide_eq_true in Hp as ->.
    destruct (IH _ Hr) as [r ->]. by exists r.
Qed.

Lemma occurs_sound pat l :
  occurs pat l = true → ∃ l1 l2, l = l1 ++ pat ++ l2.
Proof.
  induction l as [|x l IH]; simpl; intros H.
  - rewrite orb_false_r in H. apply starts_with_sound in H as [r ->].
    by exists [], r.
  - apply orb_true_iff in H as [H | H].
    + apply starts_with_sound in H as [r ->]. by exists [], r.
    + destruct (IH H) as (l1 & l2 & ->). by exists (x :: l1), l2.
Qed.

Variable kw : kwargs.

Lemma render_app (p1 p2 : list piece) (out : string) :
  render kw (p1 ++ p2) = inr out →
  ∃ o1 o2, render kw p1 = inr o1 ∧ render kw p2 = inr o2 ∧ out = o1 +:+ o2.
Proof.
  revert out. induction p1 as [|[s|n] p1 IH]; intros out H; simpl in *.
  - by exists "", out.
  - destruct (render kw (p1 ++ p2)) as [e|o] eqn:E; [done |].
    destruct (IH _ eq_refl) as (o1 & o2 & -> & ? & ->).
    simpl in H. injection H as <-.
    exists (s +:+ o1), o2. simpl. by rewrite append_assoc.
  - destruct (kwarg n kw) as [v|]; [| done].
    destruct (render kw (p1 ++ p2)) as [e|o] eqn:E; [done |].
    destruct (IH _ eq_refl) as (o1 & o2 & -> & ? & ->).
    simpl in H. injection H as <-.
    exists (v +:+ o1), o2. simpl. by rewrite append_assoc.
Qed.

Lemma render_chars (s : string) : render kw (chars s) = inr s.
Proof. induction s as [|c s IH]; simpl; [done | by rewrite IH]. Qed.

Lemma render_app_ok (p1 p2 : list piece) (o1 o2 : string) :
  render kw p1 = inr o1 → render kw p2 = inr o2 →
  render kw (p1 ++ p2) = inr (o1 +:+ o2).
Proof.
  revert o1. induction p1 as [|[s|n] p1 IH]; intros o1 H1 H2; simpl in *.
  - by injection H1 as <-.
  - destruct (render kw p1) as [e|o] eqn:E; [done |].
    simpl in H1. injection H1 as <-.
    rewrite (IH _ eq_refl H2). simpl. by rewrite append_assoc.
  - destruct (kwarg n kw) as [v|]; [| done].
    destruct (render kw p1) as [e|o] eqn:E; [done |].
    simpl in H1. injection H1 as <-.
    rewrite (IH _ eq_refl H2). simpl. by rewrite append_assoc.
Qed.

Lemma render_flat (ps : list piece) (out : string) :
  render kw ps = inr out → render kw (flat ps) = inr out.
Proof.
  revert out. induction ps as [|[s|n] ps IH]; intros out H; simpl in *.
  - done.
  - destruct (render kw ps) as [e|o] eqn:E; [done |].
    simpl in H. injection H as <-.
    apply render_app_ok; [apply render_chars | by apply IH].
  - destruct (kwarg n kw) as [v|]; [| done].
    destruct (render kw ps) as [e|o] eqn:E; [done |].
    simpl in H. injection H as <-.
    by rewrite (IH _ eq_refl).
Qed.

(** Rendering keeps runs: what a run of the template renders to is
    part of what the template renders to. *)
Lemma render_occurs (pat ps : list piece) (out : string) :
  occurs (flat pat) (flat ps) = true →
  render kw ps = inr out →
  ∃ o, render kw pat = inr o ∧ contains out o.
Proof.
  intros Hocc Hr. apply occurs_sound in Hocc as (l1 & l2 & Hl).
  apply render_flat in Hr. rewrite Hl in Hr.
  apply render_app in Hr as (o1 & o23 & _ & H23 & ->).
  apply render_app in H23 as (o2 & o3 & H2 & _ & ->).
  assert (render kw pat = inr o2) as Hpat.
  { clear -H2. revert o2 H2.
    induction pat as [|[s|n] pat IH]; intros o2 H2; simpl in *; [done | |].
    - apply render_app in H2 as (a & b & Ha & Hb & ->).
      rewrite render_chars in Ha. injection Ha as <-.
      by rewrite (IH _ Hb).
    - destruct (kwarg n kw) as [v|]; [| done].
      destruct (render kw (flat pat)) as [e|o] eqn:E; [done |].
      simpl in H2. injection H2 as <-. by rewrite (IH _ eq_refl). }
  exists o2. split; [done |]. by exists o1, o3.
Qed.

End RenderFacts.

Section FormatFacts.

Variables (template : string) (kw : kwargs) (ps : list piece) (out : string).
Hypothesis Hparse : parse template = inr ps.
Hypothesis Hformat : format template kw = inr out.

Lemma format_render : render kw ps = inr out.
Proof using Hparse Hformat. unfold format in Hformat. by rewrite Hparse in Hformat. Qed.

(** The value of a field that occurs in the template is part of the
    result. *)
Lemma format_contains_field (n v : string) :
  occurs [Field n] (flat ps) = true →
  kwarg n kw = Some v →
  contains out v.
Proof using Hparse Hformat.
  intros Hocc Hv.
  destruct (render_occurs kw [Field n] ps out Hocc format_render)
    as (o & Ho & Hc).
  simpl in Ho. rewrite Hv in Ho. simpl in Ho. injection Ho as <-.
  by rewrite append_nil_r in Hc.
Qed.

(** Literal text of the template is part of the result, with its
    escaped braces resolved. *)
Lemma format_contains_literal (lit : string) :
  occurs (chars lit) (flat ps) = true →
  contains out lit.
Proof using Hparse Hformat.
  intros Hocc.
  assert (occurs (flat [Lit lit]) (flat ps) = true) as Hocc'.
  { simpl. by rewrite app_nil_r. }
  destruct (render_occurs kw [Lit lit] ps out Hocc' format_render)
    as (o & Ho & Hc).
  simpl in Ho. injection Ho as <-. by rewrite append_nil_r in Hc.
Qed.

(** A field between two runs of literal text comes out between them. *)
Lemma format_contains_embedded (x n y v : string) :
  occurs (chars x ++ Field n :: chars y) (flat ps) = true →
  kwarg n kw = Some v →
  contains out (x +:+ v +:+ y).
Proof using Hparse Hformat.
  intros Hocc Hv.
  assert (occurs (flat [Lit x; Field n; Lit y]) (flat ps) = true) as Hocc'.
  { simpl. by rewrite app_nil_r. }
  destruct (render_occurs kw [Lit x; Field n; Lit y] ps out Hocc' format_render)
    as (o & Ho & Hc).
  simpl in Ho. rewrite Hv in Ho. simpl in Ho. injection Ho as <-.
  by rewrite append_nil_r in Hc.
Qed.

End FormatFacts.


Lemma parse_button_template : parse _get_button_html_template = inr button_pieces.
Proof. vm_compute. reflexivity. Qed.

Lemma parse_html_template : parse _get_html_template = inr html_pieces.
Proof. vm_compute. reflexivity. Qed.

Section ButtonFacts.

Variables (url key : string).

Lemma button_html_returns : ∃ button, _get_button_html url key = inr button.
Proof.
  unfold _get_button_html, format. rewrite parse_button_template.
  eexists. reflexivity.
Qed.

End ButtonFacts.

(** * What a call of the formatter does *)

Section FormatterRun.

Variables (url uuid4 : string) (dataframe : oid) (buttons : option (list string)).
Variables (s : State) (d : DataFrame).
Hypothesis Hlive : heap s !! dataframe = Some d.

#[local] Abbreviation key := ("df-" +:+ uuid4) (only parsing).


Lemma get_html_returns (s' : State) (k : string) (bl : list string) :
  heap s' !! dataframe = Some d →
  ∃ html,
    format _get_html_template
      [("key", k); ("df_html", df_html d); ("buttons_str", join nl bl)] = inr html ∧
    _get_html dataframe k bl s' = (Return html, s').
Proof.
  intros Hh.
  assert (∃ html, format _get_html_template
            [("key", k); ("df_html", df_html d); ("buttons_str", join nl bl)]
          = inr html) as [html Hhtml].
  { unfold format. rewrite parse_html_template. eexists. reflexivity. }
  exists html. split; [done |].
  unfold _get_html, _repr_html_, mbind, M_bind. rewrite Hh.
  by rewrite Hhtml.
Qed.

Lemma formatter_run :
  ∃ button html,
    _get_button_html url key = inr button ∧
    format _get_html_template
      [("key", key); ("df_html", df_html d);
       ("buttons_str", join nl (buttons_passed buttons button))] = inr html ∧
    _df_formatter_with_interactive_hint url uuid4 dataframe buttons s
    = (Return (html, buttons_left buttons button), (formatted key dataframe d s)).
Proof using Hlive.
  destruct (button_html_returns url key) as [button Hb].
  assert (heap (formatted key dataframe d s) !! dataframe = Some d) as Hh.
  { unfold formatted. simpl. rewrite lookup_insert_ne; [done |].
    intros E. pose proof (is_fresh (dom (heap s))) as Hf.
    fold (copy_of s) in Hf. rewrite E in Hf. apply Hf, elem_of_dom. eauto. }
  destruct (get_html_returns (formatted key dataframe d s) key (buttons_passed buttons button) Hh)
    as (html & Hfmt & Hget).
  exists button, html. split; [done |]. split; [done |].
  unfold _df_formatter_with_interactive_hint.
  fold key. unfold mbind, M_bind, refs_setitem. rewrite Hlive.
  unfold modify, copy_shallow. simpl heap. rewrite Hlive.
  unfold get_state. simpl _output_callbacks.
  fold (copy_of s).
  assert (∀ s1 : State,
    s1 = (formatted key dataframe d s) →
    (let '(o, s2) := lift_format (_get_button_html url key) s1 in
     match o with
     | Return button0 =>
         match buttons with
         | Some (b :: bs) =>
             html0 ← _get_html dataframe key (button0 :: b :: bs);
             mret (html0, Some (button0 :: b :: bs))
         | _ => html0 ← _get_html dataframe key [button0]; mret (html0, buttons)
         end s2
     | Raise e => (Raise e, s2)
     end) = (Return (html, buttons_left buttons button), (formatted key dataframe d s))) as Hrest.
  { intros s1 ->. rewrite Hb. simpl.
    unfold buttons_passed, buttons_left in *.
    destruct buttons as [[|b bs]|]; simpl in *;
      unfold mbind, M_bind; by rewrite Hget. }
  case_bool_decide as Hin.
  - apply Hrest. unfold formatted, set_callbacks, set_last, set_heap, set_refs.
    simpl. rewrite bool_decide_eq_true_2; done.
  - apply Hrest. unfold formatted, set_callbacks, set_last, set_heap, set_refs.
    simpl. rewrite bool_decide_eq_false_2; done.
Qed.

End FormatterRun.


Section ButtonContents.

Variables (url key button : string).
Hypothesis Hbutton : _get_button_html url key = inr button.

Lemma button_contains_css : contains button _HINT_BUTTON_CSS.
Proof using Hbutton.
  unfold _get_button_html in Hbutton.
  by eapply (format_contains_field _ _ _ _ parse_button_template Hbutton "css").
Qed.

Lemma button_contains_icon : contains button _ICON_SVG.
Proof using Hbutton.
  unfold _get_button_html in Hbutton.
  by eapply (format_contains_field _ _ _ _ parse_button_template Hbutton "icon").
Qed.

Lemma button_contains_help_url : contains button url.
Proof using Hbutton.
  unfold _get_button_html in Hbutton.
  by eapply (format_contains_field _ _ _ _ parse_button_template Hbutton
               "data_table_url").
Qed.

Lemma button_contains_invoke : contains button invoke_call.
Proof using Hbutton.
  unfold _get_button_html in Hbutton.
  by eapply (format_contains_literal _ _ _ _ parse_button_template Hbutton).
Qed.

Lemma button_contains_render : contains button render_call.
Proof using Hbutton.
  unfold _get_button_html in Hbutton.
  by eapply (format_contains_literal _ _ _ _ parse_button_template Hbutton).
Qed.

Lemma button_contains_onclick : contains button (onclick_attr key).
Proof using Hbutton.
  unfold _get_button_html in Hbutton.
  pose proof (format_contains_embedded _ _ _ _ parse_button_template Hbutton
                ("onclick=" +:+ dq +:+ "convertToInteractive('") "key"
                ("')" +:+ dq) key) as H.
  apply H; by vm_compute.
Qed.

Lemma button_contains_query : contains button (container_query key).
Proof using Hbutton.
  unfold _get_button_html in Hbutton.
  pose proof (format_contains_embedded _ _ _ _ parse_button_template Hbutton
                "const element = document.querySelector('#" "key" "');" key) as H.
  apply H; by vm_compute.
Qed.

End ButtonContents.


Section HtmlContents.

Variables (key df_html buttons_str html : string).
Hypothesis Hhtml :
  format _get_html_template
    [("key", key); ("df_html", df_html); ("buttons_str", buttons_str)] = inr html.

Lemma html_contains_df_html : contains html df_html.
Proof using Hhtml.
  by eapply (format_contains_field _ _ _ _ parse_html_template Hhtml "df_html").
Qed.

Lemma html_contains_buttons : contains html buttons_str.
Proof using Hhtml.
  by eapply (format_contains_field _ _ _ _ parse_html_template Hhtml "buttons_str").
Qed.

Lemma html_contains_container : contains html (container_open key).
Proof using Hhtml.
  pose proof (format_contains_embedded _ _ _ _ parse_html_template Hhtml
                ("<div id=" +:+ dq) "key"
                (dq +:+ " class=" +:+ dq +:+ "colab-df-container" +:+ dq +:+ ">")
                key) as H.
  apply H; by vm_compute.
Qed.

End HtmlContents.

(** * The caches *)

Section DictFacts.

Context {V : Type}.
Implicit Types (d : PyDict.dict V) (key k : string).

Lemma dict_contains_get key d :
  PyDict.contains key d = true ↔ is_Some (PyDict.get key d).
Proof.
  induction d as [|[k v] d IH]; simpl.
  - split; [done | by intros [? ?]].
  - destruct (String.eqb k key); simpl; [| done].
    split; eauto.
Qed.

Lemma dict_contains_false key d :
  PyDict.contains key d = false ↔ PyDict.get key d = None.
Proof.
  rewrite <- not_true_iff_false, dict_contains_get.
  by rewrite eq_None_not_Some.
Qed.

Lemma dict_remove_gone key d : PyDict.contains key (PyDict.remove key d) = false.
Proof.
  induction d as [|[k v] d IH]; [done |].
  unfold PyDict.remove in *. rewrite filter_cons. simpl.
  destruct (decide (k ≠ key)) as [Hne | Heq]; [| done].
  simpl. rewrite IH. by apply String.eqb_neq in Hne as ->.
Qed.

Lemma dict_remove_contains key k d :
  PyDict.contains key (PyDict.remove k d) = true → PyDict.contains key d = true.
Proof.
  induction d as [|[k' v] d IH]; [done |].
  unfold PyDict.remove in *. rewrite filter_cons. simpl.
  destruct (decide (k' ≠ k)); simpl.
  - destruct (String.eqb k' key); simpl; auto.
  - intros H. rewrite (IH H). by rewrite orb_true_r.
Qed.

Lemma dict_remove_length k d : length (PyDict.remove k d) ≤ length d.
Proof. apply length_filter. Qed.

End DictFacts.

Section Retrieval.

Variables (key : string) (s : State).

Lemma get_dataframe_last (o : oid) :
  PyDict.get key (_last_noninteractive_df s) = Some o →
  _get_dataframe key s = (Return (Some o), set_last (PyDict.remove key) s).
Proof.
  intros Hget. unfold _get_dataframe, mbind, M_bind, get_state, last_pop.
  rewrite (proj2 (dict_contains_get key _)); [| by rewrite Hget].
  by rewrite Hget.
Qed.

Lemma get_dataframe_refs (o : oid) :
  PyDict.contains key (_last_noninteractive_df s) = false →
  _noninteractive_df_refs s !! key = Some o →
  _get_dataframe key s = (Return (Some o), set_refs (delete key) s).
Proof.
  intros Hlast Hrefs. unfold _get_dataframe, mbind, M_bind, get_state, refs_pop.
  rewrite Hlast. rewrite bool_decide_eq_true_2; [| apply elem_of_dom; eauto].
  by rewrite Hrefs.
Qed.

Lemma get_dataframe_none :
  PyDict.contains key (_last_noninteractive_df s) = false →
  _noninteractive_df_refs s !! key = None →
  _get_dataframe key s
  = (Return None, set_stdout (λ out, out ++ [no_reference_message]) s).
Proof.
  intros Hlast Hrefs. unfold _get_dataframe, mbind, M_bind, get_state.
  rewrite Hlast. rewrite bool_decide_eq_false_2; [done |].
  by rewrite not_elem_of_dom.
Qed.

(** The three ways a retrieval can go. *)
Lemma get_dataframe_cases :
  (∃ o, PyDict.get key (_last_noninteractive_df s) = Some o ∧
        _get_dataframe key s = (Return (Some o), set_last (PyDict.remove key) s)) ∨
  (∃ o, PyDict.contains key (_last_noninteractive_df s) = false ∧
        _noninteractive_df_refs s !! key = Some o ∧
        _get_dataframe key s = (Return (Some o), set_refs (delete key) s)) ∨
  (PyDict.contains key (_last_noninteractive_df s) = false ∧
   _noninteractive_df_refs s !! key = None ∧
   _get_dataframe key s
   = (Return None, set_stdout (λ out, out ++ [no_reference_message]) s)).
Proof.
  destruct (PyDict.get key (_last_noninteractive_df s)) as [o|] eqn:Hl.
  - left. exists o. eauto using get_dataframe_last.
  - apply dict_contains_false in Hl.
    destruct (_noninteractive_df_refs s !! key) as [o|] eqn:Hr.
    + right; left. exists o. eauto using get_dataframe_refs.
    + right; right. eauto using get_dataframe_none.
Qed.

Lemma convert_to_interactive_eq :
  _convert_to_interactive key s
  = (match fst (_get_dataframe key s) with
     | Return (Some df) => Return (Some (mkDataTable df))
     | Return None => Return None
     | Raise e => Raise e
     end, snd (_get_dataframe key s)).
Proof.
  unfold _convert_to_interactive, mbind, M_bind.
  destruct (_get_dataframe key s) as [[[df|]|e] s']; done.
Qed.

End Retrieval.


(** * Enabling and disabling *)

Section EnableDisable.

Variables (s : State) (sh : Shell).
Hypothesis Hshell : shell s = Some sh.

Lemma enable_already (saved : option Callable) :
  _original_formatters s !! "text/html" = Some saved →
  _enable_df_interactive_hint_formatter s = (Return tt, s).
Proof using Hshell.
  intros Hsaved. unfold _enable_df_interactive_hint_formatter, mbind, M_bind.
  simpl. rewrite Hshell. rewrite bool_decide_eq_true_2; [done |].
  apply elem_of_dom. eauto.
Qed.

Lemma enable_run (f : BaseFormatter) :
  formatters sh !! "text/html" = Some f →
  _original_formatters s !! "text/html" = None →
  _enable_df_interactive_hint_formatter s = (Return tt, enabled f s).
Proof using Hshell.
  intros Hf Hnone. unfold _enable_df_interactive_hint_formatter, mbind, M_bind.
  simpl. rewrite Hshell. rewrite bool_decide_eq_false_2; [| by apply not_elem_of_dom].
  unfold call_formatter, get_formatter, mbind, M_bind. rewrite Hshell, Hf.
  done.
Qed.

Lemma enable_no_formatter :
  formatters sh !! "text/html" = None →
  _original_formatters s !! "text/html" = None →
  _enable_df_interactive_hint_formatter s = (Raise (KeyError "text/html"), s).
Proof using Hshell.
  intros Hf Hnone. unfold _enable_df_interactive_hint_formatter, mbind, M_bind.
  simpl. rewrite Hshell. rewrite bool_decide_eq_false_2; [| by apply not_elem_of_dom].
  unfold call_formatter, get_formatter, mbind, M_bind. rewrite Hshell, Hf.
  done.
Qed.

Lemma disable_not_enabled :
  _original_formatters s !! "text/html" = None →
  _disable_df_interactive_hint_formatter s = (Return tt, s).
Proof using Hshell.
  intros Hnone. unfold _disable_df_interactive_hint_formatter, mbind, M_bind.
  simpl. rewrite Hshell. rewrite bool_decide_eq_false_2; [done |].
  by apply not_elem_of_dom.
Qed.

Lemma disable_run (f : BaseFormatter) (saved : option Callable) :
  formatters sh !! "text/html" = Some f →
  _original_formatters s !! "text/html" = Some saved →
  _disable_df_interactive_hint_formatter s = (Return tt, disabled f saved s).
Proof using Hshell.
  intros Hf Hsaved. unfold _disable_df_interactive_hint_formatter, mbind, M_bind.
  simpl. rewrite Hshell.
  rewrite bool_decide_eq_true_2; [| apply elem_of_dom; eauto].
  unfold call_formatter, get_formatter, originals_pop, mbind, M_bind.
  rewrite Hshell, Hf.
  unfold disabled, restored, with_html_formatter, modify, set_shell, set_originals.
  destruct (IPython.pop "pandas.core.frame.DataFrame" f) as [old popped].
  simpl. rewrite Hshell. simpl.
  rewrite lookup_insert_eq. simpl. rewrite Hsaved. simpl.
  rewrite lookup_insert_eq. simpl.
  by rewrite insert_insert_eq.
Qed.

Lemma disable_no_formatter (saved : option Callable) :
  formatters sh !! "text/html" = None →
  _original_formatters s !! "text/html" = Some saved →
  _disable_df_interactive_hint_formatter s = (Raise (KeyError "text/html"), s).
Proof using Hshell.
  intros Hf Hsaved. unfold _disable_df_interactive_hint_formatter, mbind, M_bind.
  simpl. rewrite Hshell.
  rewrite bool_decide_eq_true_2; [| apply elem_of_dom; eauto].
  unfold call_formatter, get_formatter, mbind, M_bind.
  by rewrite Hshell, Hf.
Qed.

End EnableDisable.

Lemma enable_no_shell (s : State) :
  shell s = None → _enable_df_interactive_hint_formatter s = (Return tt, s).
Proof.
  intros H. unfold _enable_df_interactive_hint_formatter, mbind, M_bind.
  simpl. by rewrite H.
Qed.

Lemma disable_no_shell (s : State) :
  shell s = None → _disable_df_interactive_hint_formatter s = (Return tt, s).
Proof.
  intros H. unfold _disable_df_interactive_hint_formatter, mbind, M_bind.
  simpl. by rewrite H.
Qed.

(** * Calls that leave the caches alone *)

Section Frames.

Variable s : State.

Lemma enable_frame :
  let s' := snd (_enable_df_interactive_hint_formatter s) in
  heap s' = heap s ∧
  _noninteractive_df_refs s' = _noninteractive_df_refs s ∧
  _last_noninteractive_df s' = _last_noninteractive_df s.
Proof.
  destruct (shell s) as [sh|] eqn:Hsh; [| by rewrite enable_no_shell].
  destruct (_original_formatters s !! "text/html") as [saved|] eqn:Hs.
  { by rewrite (enable_already s sh Hsh saved). }
  destruct (formatters sh !! "text/html") as [pr|] eqn:Hpr.
  - by rewrite (enable_run s sh Hsh pr).
  - by rewrite (enable_no_formatter s sh Hsh).
Qed.

Lemma disable_frame :
  let s' := snd (_disable_df_interactive_hint_formatter s) in
  heap s' = heap s ∧
  _noninteractive_df_refs s' = _noninteractive_df_refs s ∧
  _last_noninteractive_df s' = _last_noninteractive_df s.
Proof.
  destruct (shell s) as [sh|] eqn:Hsh; [| by rewrite disable_no_shell].
  destruct (_original_formatters s !! "text/html") as [saved|] eqn:Hs.
  2: { by rewrite (disable_not_enabled s sh Hsh). }
  destruct (formatters sh !! "text/html") as [pr|] eqn:Hpr.
  - by rewrite (disable_run s sh Hsh pr saved).
  - by rewrite (disable_no_formatter s sh Hsh saved).
Qed.

Lemma collect_last (dead : gset oid) :
  _last_noninteractive_df (collect dead s) = _last_noninteractive_df s.
Proof. done. Qed.

Lemma collect_keeps_held (dead : gset oid) (o : oid) (d : DataFrame) :
  heap s !! o = Some d → o ∈ strongly_held s →
  heap (collect dead s) !! o = Some d.
Proof.
  intros Hh Ho. unfold collect. simpl.
  apply map_lookup_filter_Some. split; [done |]. simpl.
  intros [_ Hnot]%elem_of_difference. done.
Qed.

Lemma collect_refs_sub (dead : gset oid) (key : string) :
  is_Some (_noninteractive_df_refs (collect dead s) !! key) →
  is_Some (_noninteractive_df_refs s !! key).
Proof.
  unfold collect. simpl. intros [o Ho].
  apply map_lookup_filter_Some in Ho as [Ho _]. eauto.
Qed.

Lemma new_dataframe_keeps (d' : DataFrame) (o : oid) (d : DataFrame) :
  heap s !! o = Some d → heap (snd (new_dataframe d' s)) !! o = Some d.
Proof.
  intros Hh. unfold new_dataframe. simpl.
  rewrite lookup_insert_ne; [done |].
  intros <-. pose proof (is_fresh (dom (heap s))) as Hf.
  apply Hf, elem_of_dom. eauto.
Qed.

Lemma get_last_dataframe_key_pure :
  _get_last_dataframe_key s
  = (Return (head (PyDict.keys (_last_noninteractive_df s))), s).
Proof.
  unfold _get_last_dataframe_key, mbind, M_bind. simpl.
  by destruct (PyDict.keys (_last_noninteractive_df s)).
Qed.

(** A call that neither formats nor retrieves changes nothing in the
    single-entry cache and frees nothing it holds. *)
Lemma idle_keeps (url : string) (c : call) (o : oid) (d : DataFrame) :
  is_idle c = true →
  heap s !! o = Some d → o ∈ strongly_held s →
  _last_noninteractive_df (exec url c s) = _last_noninteractive_df s ∧
  heap (exec url c s) !! o = Some d.
Proof.
  intros Hidle Hh Ho. destruct c; try done; simpl.
  - by rewrite get_last_dataframe_key_pure.
  - destruct enable_frame as (Hheap & _ & Hlast). simpl in *.
    by rewrite Hheap, Hlast.
  - destruct disable_frame as (Hheap & _ & Hlast). simpl in *.
    by rewrite Hheap, Hlast.
  - split; [done | by apply collect_keeps_held].
  - split; [done |]. by apply new_dataframe_keeps.
Qed.

End Frames.

Lemma idle_run_keeps (url : string) (calls : list call) (s : State)
    (o : oid) (d : DataFrame) :
  forallb is_idle calls = true →
  heap s !! o = Some d → o ∈ strongly_held s →
  _last_noninteractive_df (run url calls s) = _last_noninteractive_df s ∧
  heap (run url calls s) !! o = Some d.
Proof.
  revert s. induction calls as [|c calls IH]; intros s Hidle Hh Ho; [done |].
  simpl in Hidle. apply andb_true_iff in Hidle as [Hc Hcs].
  destruct (idle_keeps s url c o d Hc Hh Ho) as [Hl Hh'].
  simpl. destruct (IH (exec url c s) Hcs Hh') as [Hl' Hh''].
  - unfold strongly_held in *. by rewrite Hl.
  - split; [by rewrite Hl', Hl | done].
Qed.

(** * The formatter and the caches *)

Lemma formatter_dangling (url uuid4 : string) (dataframe : oid)
    (buttons : option (list string)) (s : State) :
  heap s !! dataframe = None →
  _df_formatter_with_interactive_hint url uuid4 dataframe buttons s
  = (Raise (DanglingReference dataframe), s).
Proof.
  intros H. unfold _df_formatter_with_interactive_hint, mbind, M_bind, refs_setitem.
  by rewrite H.
Qed.

Lemma copy_of_fresh (s : State) : heap s !! copy_of s = None.
Proof.
  apply not_elem_of_dom. unfold copy_of. apply is_fresh.
Qed.

Lemma formatted_last (key : string) (dataframe : oid) (d : DataFrame) (s : State) :
  _last_noninteractive_df (formatted key dataframe d s) = [(key, copy_of s)].
Proof. done. Qed.

Lemma formatted_refs (key : string) (dataframe : oid) (d : DataFrame) (s : State) :
  _noninteractive_df_refs (formatted key dataframe d s)
  = <[key := dataframe]> (_noninteractive_df_refs s).
Proof. done. Qed.

Lemma formatted_heap (key : string) (dataframe : oid) (d : DataFrame) (s : State) :
  heap (formatted key dataframe d s) = <[copy_of s := d]> (heap s).
Proof. done. Qed.

Lemma dict_get_single {V} (key : string) (v : V) : PyDict.get key [(key, v)] = Some v.
Proof. simpl. by rewrite String.eqb_refl. Qed.

Lemma dict_remove_single {V} (key : string) (v : V) :
  PyDict.remove key [(key, v)] = [].
Proof.
  unfold PyDict.remove. rewrite filter_cons. simpl.
  by destruct (decide (key ≠ key)).
Qed.

(** Every call keeps the single-entry cache at one entry or none. *)
Lemma exec_single_entry (url : string) (c : call) (s : State) :
  length (_last_noninteractive_df s) ≤ 1 →
  length (_last_noninteractive_df (exec url c s)) ≤ 1.
Proof.
  intros Hlen. destruct c as [uuid4 df buttons|key|key| | | |dead|d']; simpl.
  - destruct (heap s !! df) as [d|] eqn:Hd.
    + destruct (formatter_run url uuid4 df buttons s d Hd) as (b & h & _ & _ & ->).
      done.
    + by rewrite formatter_dangling.
  - rewrite convert_to_interactive_eq. simpl.
    destruct (get_dataframe_cases key s)
      as [(o & _ & ->) | [(o & _ & _ & ->) | (_ & _ & ->)]]; simpl; try done.
    etrans; [apply dict_remove_length | done].
  - destruct (get_dataframe_cases key s)
      as [(o & _ & ->) | [(o & _ & _ & ->) | (_ & _ & ->)]]; simpl; try done.
    etrans; [apply dict_remove_length | done].
  - by rewrite get_last_dataframe_key_pure.
  - destruct (enable_frame s) as (_ & _ & Hl). simpl in Hl. by rewrite Hl.
  - destruct (disable_frame s) as (_ & _ & Hl). simpl in Hl. by rewrite Hl.
  - done.
  - done.
Qed.

Lemma run_single_entry (url : string) (calls : list call) (s : State) :
  length (_last_noninteractive_df s) ≤ 1 →
  length (_last_noninteractive_df (run url calls s)) ≤ 1.
Proof.
  revert s. induction calls as [|c calls IH]; intros s Hlen; [done |].
  simpl. apply IH. by apply exec_single_entry.
Qed.

(** A call that is not a formatting neither adds [key] to a cache nor
    retrieves under it without taking it out of one. *)
Lemma exec_cached (url key : string) (c : call) (s : State) :
  is_format c = false →
  cached key (exec url c s) + Nat.b2n (retrieves key c s) ≤ cached key s.
Proof.
  intros Hnf. unfold cached.
  assert (∀ k, Nat.b2n (PyDict.contains key (PyDict.remove k (_last_noninteractive_df s)))
               ≤ Nat.b2n (PyDict.contains key (_last_noninteractive_df s))) as Hrem.
  { intros k.
    destruct (PyDict.contains key (PyDict.remove k _)) eqn:E; simpl; [| lia].
    by rewrite (dict_remove_contains _ _ _ E). }
  assert (∀ k, Nat.b2n (bool_decide (key ∈ dom (delete k (_noninteractive_df_refs s))))
               ≤ Nat.b2n (bool_decide (key ∈ dom (_noninteractive_df_refs s)))) as Hdel.
  { intros k. case_bool_decide as E; simpl; [| lia].
    rewrite bool_decide_eq_true_2; [done |].
    rewrite dom_delete_L in E. by apply elem_of_difference in E as [? _]. }
  assert (∀ k, cached key (snd (_get_dataframe k s))
               + Nat.b2n (bool_decide (k = key) &&
                          match fst (_get_dataframe k s) with
                          | Return (Some _) => true
                          | _ => false
                          end)
               ≤ cached key s) as Hget.
  { intros k. unfold cached.
    destruct (get_dataframe_cases k s)
      as [(o & Ho & ->) | [(o & Hl & Hr & ->) | (_ & _ & ->)]]; simpl.
    - destruct (decide (k = key)) as [-> | Hne].
      + rewrite (bool_decide_eq_true_2 (key = key)) by done.
        rewrite dict_remove_gone.
        rewrite (proj2 (dict_contains_get key _)); [simpl; lia | by rewrite Ho].
      + rewrite (bool_decide_eq_false_2 (k = key)) by done.
        specialize (Hrem k). simpl. lia.
    - destruct (decide (k = key)) as [-> | Hne].
      + rewrite (bool_decide_eq_true_2 (key = key)) by done.
        rewrite (bool_decide_eq_false_2 (key ∈ dom (delete key _)));
          [| rewrite dom_delete_L; intros [_ Hn]%elem_of_difference;
             by apply Hn, elem_of_singleton].
        rewrite (bool_decide_eq_true_2 (key ∈ dom (_noninteractive_df_refs s)));
          [simpl; lia | apply elem_of_dom; eauto].
      + rewrite (bool_decide_eq_false_2 (k = key)) by done.
        specialize (Hdel k). simpl. lia.
    - rewrite andb_false_r. simpl. lia. }
  destruct c as [uuid4 df buttons|k|k| | | |dead|d']; cbn [exec retrieves];
    try done.
  - rewrite convert_to_interactive_eq. simpl.
    specialize (Hget k). unfold cached in Hget.
    destruct (fst (_get_dataframe k s)) as [[?|]|]; simpl in *; lia.
  - apply Hget.
  - rewrite get_last_dataframe_key_pure. simpl. lia.
  - destruct (enable_frame s) as (_ & Hr & Hl). simpl in *. rewrite Hr, Hl. lia.
  - destruct (disable_frame s) as (_ & Hr & Hl). simpl in *. rewrite Hr, Hl. lia.
  - assert (Nat.b2n (bool_decide (key ∈ dom (_noninteractive_df_refs (collect dead s))))
            ≤ Nat.b2n (bool_decide (key ∈ dom (_noninteractive_df_refs s)))).
    { destruct (decide (key ∈ dom (_noninteractive_df_refs (collect dead s))))
        as [E | E].
      - rewrite !bool_decide_eq_true_2; [done | | done].
        apply elem_of_dom, (collect_refs_sub s dead), elem_of_dom, E.
      - rewrite (bool_decide_eq_false_2 _ E). simpl. lia. }
    rewrite collect_last. simpl in *. lia.
  - simpl. lia.
Qed.

Lemma retrievals_cached (url key : string) (calls : list call) (s : State) :
  forallb (λ c, negb (is_format c)) calls = true →
  retrievals url key calls s ≤ cached key s.
Proof.
  revert s. induction calls as [|c calls IH]; intros s Hnf; simpl; [lia |].
  simpl in Hnf. apply andb_true_iff in Hnf as [Hc Hcs].
  apply negb_true_iff in Hc.
  pose proof (exec_cached url key c s Hc) as Hstep.
  specialize (IH (exec url c s) Hcs).
  destruct (retrieves key c s); simpl in *; lia.
Qed.


(** * Properties of the caches *)

(** C8. For a key present in neither cache, [_get_dataframe] prints
    the message "Error: Runtime no longer has a reference to this
    dataframe, please re-run this cell and try again." and returns [None];
    [_convert_to_interactive] then returns [None] and builds no
    [DataTable]; the two caches are as they were. *)
Theorem missing_key_is_reported (key : string) (s : State) :
  PyDict.contains key (_last_noninteractive_df s) = false →
  key ∉ dom (_noninteractive_df_refs s) →
  let message :=
    "Error: Runtime no longer has a reference to this dataframe, please re-run this cell and try again." in
  let s' := snd (_get_dataframe key s) in
  _get_dataframe key s = (Return None, s') ∧
  _convert_to_interactive key s = (Return None, s') ∧
  stdout s' = stdout s ++ [message] ∧
  _last_noninteractive_df s' = _last_noninteractive_df s ∧
  _noninteractive_df_refs s' = _noninteractive_df_refs s ∧
  heap s' = heap s.
Proof.
  intros Hlast Hrefs. apply not_elem_of_dom in Hrefs.
  pose proof (get_dataframe_none key s Hlast Hrefs) as Hget.
  simpl. rewrite convert_to_interactive_eq, Hget. done.
Qed.

(** C9. Retrieval is destructive.  A successful [_get_dataframe(key)]
    found its result in the single-entry cache, and popped it there
    leaving the weak-value cache alone, or else found it in the
    weak-value cache, and popped it there leaving the single-entry cache
    alone.  Over any sequence of calls without a formatting, garbage
    collections included, at most two retrievals under one key succeed. *)
Theorem retrieval_is_destructive (url key : string) (calls : list call) (s : State) :
  forallb (λ c, negb (is_format c)) calls = true →
  (∀ o s', _get_dataframe key s = (Return (Some o), s') →
     (PyDict.get key (_last_noninteractive_df s) = Some o ∧
      _last_noninteractive_df s' = PyDict.remove key (_last_noninteractive_df s) ∧
      PyDict.contains key (_last_noninteractive_df s') = false ∧
      _noninteractive_df_refs s' = _noninteractive_df_refs s)
     ∨
     (PyDict.contains key (_last_noninteractive_df s) = false ∧
      _noninteractive_df_refs s !! key = Some o ∧
      _noninteractive_df_refs s' = delete key (_noninteractive_df_refs s) ∧
      _noninteractive_df_refs s' !! key = None ∧
      _last_noninteractive_df s' = _last_noninteractive_df s)) ∧
  retrievals url key calls s ≤ 2.
Proof.
  intros Hnf. split.
  - intros o s' Hget.
    destruct (get_dataframe_cases key s)
      as [(o' & Ho & E) | [(o' & Hl & Hr & E) | (_ & _ & E)]];
      rewrite E in Hget; [| | done].
    + injection Hget as <- <-. left. simpl.
      split_and!; [done | done | apply dict_remove_gone | done].
    + injection Hget as <- <-. right. simpl.
      split_and!; [done | done | done | apply lookup_delete_eq | done].
  - etrans; [by apply retrievals_cached |].
    unfold cached.
    destruct (PyDict.contains _ _), (bool_decide _); simpl; lia.
Qed.

(** C10. [_get_last_dataframe_key] returns the key of the single entry
    of [_last_noninteractive_df] and [None] when that cache is empty:
    [None] before any formatting, the key of the formatting just done, and
    [None] again once that dataframe was retrieved.  It changes nothing. *)
Theorem last_key_is_the_formatted_one (url uuid4 : string) (dataframe : oid)
    (buttons : option (list string)) (s : State) (d : DataFrame) :
  heap s !! dataframe = Some d →
  let key := "df-" +:+ uuid4 in
  let s1 := snd (_df_formatter_with_interactive_hint url uuid4 dataframe buttons s) in
  let s2 := snd (_get_dataframe key s1) in
  (∀ s k o, _last_noninteractive_df s = [(k, o)] →
            _get_last_dataframe_key s = (Return (Some k), s)) ∧
  (∀ s, _last_noninteractive_df s = [] →
        _get_last_dataframe_key s = (Return None, s)) ∧
  _get_last_dataframe_key initial = (Return None, initial) ∧
  _get_last_dataframe_key s1 = (Return (Some key), s1) ∧
  _get_last_dataframe_key s2 = (Return None, s2).
Proof.
  intros Hlive key s1 s2.
  assert (∀ s k o, _last_noninteractive_df s = [(k, o)] →
                   _get_last_dataframe_key s = (Return (Some k), s)) as Hone.
  { intros s' k o H. by rewrite get_last_dataframe_key_pure, H. }
  assert (∀ s, _last_noninteractive_df s = [] →
               _get_last_dataframe_key s = (Return None, s)) as Hnone.
  { intros s' H. by rewrite get_last_dataframe_key_pure, H. }
  destruct (formatter_run url uuid4 dataframe buttons s d Hlive)
    as (b & h & _ & _ & Hrun).
  assert (_last_noninteractive_df s1 = [(key, copy_of s)]) as Hs1.
  { unfold s1. by rewrite Hrun. }
  split_and!; [done | done | by apply Hnone | by eapply Hone |].
  apply Hnone. unfold s2.
  rewrite (get_dataframe_last key s1 (copy_of s)).
  - simpl. rewrite Hs1. apply dict_remove_single.
  - rewrite Hs1. apply dict_get_single.
Qed.

(** C5. A call of the formatter uses the key ['df-' + str(uuid4())],
    [uuid4] being what [uuid.uuid4()] gave it, stores the displayed
    object itself under that key in the weak-value cache
    [_noninteractive_df_refs], and stores under the same key in
    [_last_noninteractive_df] a shallow copy: an object that did not exist
    before the call, other than the displayed one, over the same data. *)
Theorem formatter_stores_object_and_copy (url uuid4 : string) (dataframe : oid)
    (buttons : option (list string)) (s : State) (d : DataFrame) :
  heap s !! dataframe = Some d →
  let key := "df-" +:+ uuid4 in
  ∃ html buttons' s' copy,
    _df_formatter_with_interactive_hint url uuid4 dataframe buttons s
    = (Return (html, buttons'), s') ∧
    _noninteractive_df_refs s' !! key = Some dataframe ∧
    _last_noninteractive_df s' = [(key, copy)] ∧
    copy ≠ dataframe ∧
    heap s !! copy = None ∧
    heap s' !! copy = Some d ∧
    heap s' !! dataframe = Some d.
Proof.
  intros Hlive key.
  destruct (formatter_run url uuid4 dataframe buttons s d Hlive)
    as (b & h & _ & _ & Hrun).
  assert (copy_of s ≠ dataframe) as Hne.
  { intros E. pose proof (copy_of_fresh s) as Hf. rewrite E in Hf. congruence. }
  exists h, (buttons_left buttons b), (formatted key dataframe d s), (copy_of s).
  split_and!; try done.
  - rewrite formatted_refs. apply lookup_insert_eq.
  - apply copy_of_fresh.
  - rewrite formatted_heap. apply lookup_insert_eq.
  - rewrite formatted_heap. by rewrite lookup_insert_ne.
Qed.

(** C3. [_last_noninteractive_df] is a single-entry cache.  After
    every sequence of calls, from the initial state or from any state in
    which it holds at most one entry, it holds at most one entry; and
    right after a call of the formatter, whatever it held before, it holds
    exactly one entry, under the key of that call. *)
Theorem last_cache_is_single_entry (url uuid4 : string) (calls : list call)
    (dataframe : oid) (buttons : option (list string)) (s : State) (d : DataFrame) :
  heap s !! dataframe = Some d →
  length (_last_noninteractive_df (run url calls initial)) ≤ 1 ∧
  (∀ s0, length (_last_noninteractive_df s0) ≤ 1 →
         length (_last_noninteractive_df (run url calls s0)) ≤ 1) ∧
  ∃ copy,
    _last_noninteractive_df
      (snd (_df_formatter_with_interactive_hint url uuid4 dataframe buttons s))
    = [("df-" +:+ uuid4, copy)].
Proof.
  intros Hlive. split_and!.
  - apply run_single_entry. simpl. lia.
  - intros s0. apply run_single_entry.
  - destruct (formatter_run url uuid4 dataframe buttons s d Hlive)
      as (b & h & _ & _ & ->).
    by exists (copy_of s).
Qed.

(** C1. After a dataframe was formatted under the key [k], a call of
    [_convert_to_interactive(k)] with no formatting or retrieval in
    between (garbage collections, new dataframes, enabling, disabling and
    reading the last key may happen) finds a stored object for that
    dataframe and returns it wrapped in a [DataTable]: the shallow copy
    that the single-entry cache holds under [k], still alive and over the
    dataframe's data. *)
Theorem convert_after_format (url uuid4 : string) (dataframe : oid)
    (buttons : option (list string)) (s : State) (d : DataFrame)
    (between : list call) :
  heap s !! dataframe = Some d →
  forallb is_idle between = true →
  let k := "df-" +:+ uuid4 in
  ∃ html buttons' s1 copy,
    _df_formatter_with_interactive_hint url uuid4 dataframe buttons s
    = (Return (html, buttons'), s1) ∧
    _noninteractive_df_refs s1 !! k = Some dataframe ∧
    PyDict.get k (_last_noninteractive_df s1) = Some copy ∧
    let s2 := run url between s1 in
    heap s2 !! copy = Some d ∧
    fst (_convert_to_interactive k s2) = Return (Some (mkDataTable copy)) ∧
    PyDict.contains k (_last_noninteractive_df (snd (_convert_to_interactive k s2)))
    = false.
Proof.
  intros Hlive Hidle k.
  destruct (formatter_run url uuid4 dataframe buttons s d Hlive)
    as (b & h & _ & _ & Hrun).
  exists h, (buttons_left buttons b), (formatted k dataframe d s), (copy_of s).
  split; [done |].
  split; [rewrite formatted_refs; apply lookup_insert_eq |].
  split; [rewrite formatted_last; apply dict_get_single |].
  destruct (idle_run_keeps url between (formatted k dataframe d s) (copy_of s) d Hidle)
    as [Hlast Hheap].
  { rewrite formatted_heap. apply lookup_insert_eq. }
  { unfold strongly_held. rewrite formatted_last. simpl. set_solver. }
  simpl. split; [done |].
  rewrite convert_to_interactive_eq.
  rewrite (get_dataframe_last k _ (copy_of s)).
  - simpl. split; [done |]. apply dict_remove_gone.
  - rewrite Hlast, formatted_last. apply dict_get_single.
Qed.

(** * Properties of the formatter registration *)

Section FormatterFacts.

Variable f : BaseFormatter.

#[local] Abbreviation DF := "pandas.core.frame.DataFrame" (only parsing).
#[local] Abbreviation hint := Fn_df_formatter_with_interactive_hint (only parsing).








Lemma round_trip_deferred_other (typ : string) :
  typ ≠ DF → deferred_printers (round_trip f) !! typ = deferred_printers f !! typ.
Proof.
  intros Hne. unfold round_trip. cbn [deferred_printers].
  destruct (IPython.lookup_by_type_name DF f).
  - rewrite lookup_insert_ne by done. by rewrite lookup_delete_ne.
  - by rewrite lookup_delete_ne.
Qed.








End FormatterFacts.

Section RoundTrip.

Variables (s : State) (sh : Shell) (f : BaseFormatter).
Hypothesis Hshell : shell s = Some sh.
Hypothesis Hformatter : formatters sh !! "text/html" = Some f.
Hypothesis Hfree : _original_formatters s !! "text/html" = None.


Lemma with_html_formatter_shell (f' : BaseFormatter) (s' : State) :
  shell s' = Some sh →
  shell (with_html_formatter f' s')
  = Some (mkShell (<["text/html" := f']> (formatters sh))).
Proof. intros H. unfold with_html_formatter. simpl. by rewrite H. Qed.



Lemma enabled_as_shell (f' : BaseFormatter) :
  shell (enabled_as f f' s)
  = Some (mkShell (<["text/html" := f']> (formatters sh))).
Proof using Hshell. unfold enabled_as. simpl. by rewrite Hshell. Qed.










End RoundTrip.








(** * Properties of the emitted HTML *)

(** C4. For every dataframe, the string the formatter returns
    contains what the dataframe's [_repr_html_] returns, the hint button's
    HTML as [_get_button_html] templates it, the style block
    [_HINT_BUTTON_CSS], and a script that calls
    [google.colab.kernel.invokeFunction] with the callback name
    ['convertToInteractive'], the name in [_output_callbacks] after the
    call, and renders what comes back with
    [google.colab.output.renderOutput]. *)
Theorem html_has_rendering_button_css_script (url uuid4 : string) (dataframe : oid)
    (buttons : option (list string)) (s : State) (d : DataFrame) :
  heap s !! dataframe = Some d →
  ∃ html buttons' s' button,
    _df_formatter_with_interactive_hint url uuid4 dataframe buttons s
    = (Return (html, buttons'), s') ∧
    _get_button_html url ("df-" +:+ uuid4) = inr button ∧
    contains html (df_html d) ∧
    contains html button ∧
    contains button _HINT_BUTTON_CSS ∧
    contains html _HINT_BUTTON_CSS ∧
    contains html
      ("await google.colab.kernel.invokeFunction('convertToInteractive'," +:+ nl +:+
       "                                                    [key], {});") ∧
    contains html "await google.colab.output.renderOutput(dataTable, element);" ∧
    "convertToInteractive" ∈ dom (_output_callbacks s').
Proof.
  intros Hlive.
  destruct (formatter_run url uuid4 dataframe buttons s d Hlive)
    as (button & html & Hb & Hh & Hrun).
  exists html, (buttons_left buttons button),
    (formatted ("df-" +:+ uuid4) dataframe d s), button.
  assert (contains html button) as Hhb.
  { eapply contains_trans; [by eapply html_contains_buttons |].
    apply contains_join_head. }
  split_and!; try done.
  - by eapply html_contains_df_html.
  - by eapply button_contains_css.
  - eapply contains_trans; [done | by eapply button_contains_css].
  - eapply contains_trans; [done |]. by eapply (button_contains_invoke url).
  - eapply contains_trans; [done |]. by eapply (button_contains_render url).
  - unfold formatted. simpl. case_bool_decide as Hin; [done |].
    apply elem_of_dom. rewrite lookup_insert_eq. eauto.
Qed.

(** C7. The hint button goes to position 0 of the buttons list:
    a caller's non-empty list has it in front after the call, and in the
    emitted HTML it stands before the caller's buttons.  The key in the
    emitted HTML, in the [id] of the container and in the button's
    [onclick] call of [convertToInteractive], is the key under which the
    dataframe went into the two caches, so the conversion that the button
    asks for finds the dataframe rendered next to it. *)
Theorem button_first_and_key_shared (url uuid4 : string) (dataframe : oid)
    (buttons : option (list string)) (s : State) (d : DataFrame) :
  heap s !! dataframe = Some d →
  let key := "df-" +:+ uuid4 in
  ∃ html buttons' s' button copy,
    _df_formatter_with_interactive_hint url uuid4 dataframe buttons s
    = (Return (html, buttons'), s') ∧
    _get_button_html url key = inr button ∧
    (∀ b bs, buttons = Some (b :: bs) →
             buttons' = Some (button :: b :: bs) ∧
             contains html (button +:+ nl +:+ join nl (b :: bs))) ∧
    (buttons = None ∨ buttons = Some [] → buttons' = buttons) ∧
    contains html (join nl (button :: default [] buttons)) ∧
    contains html
      ("<div id=" +:+ dq +:+ key +:+ dq +:+ " class=" +:+ dq +:+ "colab-df-container" +:+ dq +:+ ">") ∧
    contains button
      ("onclick=" +:+ dq +:+ "convertToInteractive('" +:+ key +:+ "')" +:+ dq) ∧
    contains html
      ("onclick=" +:+ dq +:+ "convertToInteractive('" +:+ key +:+ "')" +:+ dq) ∧
    _noninteractive_df_refs s' !! key = Some dataframe ∧
    _last_noninteractive_df s' = [(key, copy)] ∧
    heap s' !! copy = Some d ∧
    fst (_convert_to_interactive key s') = Return (Some (mkDataTable copy)).
Proof.
  intros Hlive key.
  destruct (formatter_run url uuid4 dataframe buttons s d Hlive)
    as (button & html & Hb & Hh & Hrun).
  exists html, (buttons_left buttons button), (formatted key dataframe d s),
    button, (copy_of s).
  assert (contains html (join nl (buttons_passed buttons button))) as Hjoin.
  { by eapply html_contains_buttons. }
  assert (contains html button) as Hhb.
  { eapply contains_trans; [done |]. apply contains_join_head. }
  pose proof (button_contains_onclick url key button Hb) as Hon.
  split_and!; try done.
  - intros b bs ->. split; [done |]. by rewrite <- join_cons.
  - by intros [-> | ->].
  - by eapply html_contains_container.
  - by eapply contains_trans.
  - rewrite formatted_refs. apply lookup_insert_eq.
  - rewrite formatted_heap. apply lookup_insert_eq.
  - rewrite convert_to_interactive_eq.
    rewrite (get_dataframe_last key _ (copy_of s)); [done |].
    rewrite formatted_last. apply dict_get_single.
Qed.


(** * The properties on the small session *)

Lemma convert_after_format_witness :
  heap demo !! 1%positive = Some demo_frame ∧
  forallb is_idle demo_between = true ∧
  ∃ copy,
    fst (_convert_to_interactive "df-1234" (run demo_url demo_between demo_formatted))
    = Return (Some (mkDataTable copy)).
Proof.
  split; [reflexivity |]. split; [reflexivity |].
  destruct (convert_after_format demo_url "1234" 1%positive None demo demo_frame
              demo_between eq_refl eq_refl)
    as (html & b & s1 & copy & Hrun & _ & _ & _ & Hconv & _).
  exists copy. unfold demo_formatted. rewrite Hrun. exact Hconv.
Defined.


Lemma last_cache_is_single_entry_witness :
  heap demo !! 1%positive = Some demo_frame ∧
  length (_last_noninteractive_df (run demo_url demo_retrievals initial)) ≤ 1 ∧
  ∃ copy, _last_noninteractive_df demo_formatted = [("df-1234", copy)].
Proof.
  split; [reflexivity |].
  destruct (last_cache_is_single_entry demo_url "1234" demo_retrievals 1%positive None
              demo demo_frame eq_refl)
    as (Hinit & _ & Hone).
  split; [exact Hinit | exact Hone].
Defined.

Lemma html_has_rendering_button_css_script_witness :
  heap demo !! 1%positive = Some demo_frame ∧
  ∃ html buttons' s',
    _df_formatter_with_interactive_hint demo_url "1234" 1%positive None demo
    = (Return (html, buttons'), s') ∧
    contains html "<table>t</table>" ∧
    contains html _HINT_BUTTON_CSS.
Proof.
  split; [reflexivity |].
  destruct (html_has_rendering_button_css_script demo_url "1234" 1%positive None
              demo demo_frame eq_refl)
    as (html & b & s' & button & Hrun & _ & Hdf & _ & _ & Hcss & _).
  exists html, b, s'. split; [exact Hrun |]. split; [exact Hdf | exact Hcss].
Defined.

Lemma formatter_stores_object_and_copy_witness :
  heap demo !! 1%positive = Some demo_frame ∧
  ∃ copy,
    _noninteractive_df_refs demo_formatted !! "df-1234" = Some 1%positive ∧
    _last_noninteractive_df demo_formatted = [("df-1234", copy)] ∧
    copy ≠ 1%positive ∧
    heap demo_formatted !! copy = Some demo_frame.
Proof.
  split; [reflexivity |].
  destruct (formatter_stores_object_and_copy demo_url "1234" 1%positive None
              demo demo_frame eq_refl)
    as (html & b & s' & copy & Hrun & Hrefs & Hlast & Hne & _ & Hcopy & _).
  exists copy. unfold demo_formatted. rewrite Hrun.
  split; [exact Hrefs |]. split; [exact Hlast |]. split; [exact Hne | exact Hcopy].
Defined.


Lemma button_first_and_key_shared_witness :
  heap demo !! 1%positive = Some demo_frame ∧
  ∃ html button copy,
    _df_formatter_with_interactive_hint demo_url "1234" 1%positive
      (Some ["<b>mine</b>"]) demo
    = (Return (html, Some [button; "<b>mine</b>"]),
       snd (_df_formatter_with_interactive_hint demo_url "1234" 1%positive
              (Some ["<b>mine</b>"]) demo)) ∧
    contains html (button +:+ nl +:+ "<b>mine</b>") ∧
    contains html
      ("<div id=" +:+ dq +:+ "df-1234" +:+ dq +:+ " class=" +:+ dq +:+ "colab-df-container" +:+ dq +:+ ">") ∧
    contains button
      ("onclick=" +:+ dq +:+ "convertToInteractive('df-1234')" +:+ dq) ∧
    fst (_convert_to_interactive "df-1234"
           (snd (_df_formatter_with_interactive_hint demo_url "1234" 1%positive
                   (Some ["<b>mine</b>"]) demo)))
    = Return (Some (mkDataTable copy)).
Proof.
  split; [reflexivity |].
  destruct (button_first_and_key_shared demo_url "1234" 1%positive
              (Some ["<b>mine</b>"]) demo demo_frame eq_refl)
    as (html & b & s' & button & copy & Hrun & _ & Hfirst & _ & _ & Hid & Hon
        & _ & _ & _ & _ & Hconv).
  destruct (Hfirst "<b>mine</b>" [] eq_refl) as [-> Hbefore].
  exists html, button, copy. rewrite Hrun.
  split; [reflexivity |]. split; [exact Hbefore |]. split; [exact Hid |].
  split; [exact Hon | exact Hconv].
Defined.

Lemma missing_key_is_reported_witness :
  PyDict.contains "df-0" (_last_noninteractive_df demo_formatted) = false ∧
  ("df-0" ∉ dom (_noninteractive_df_refs demo_formatted)) ∧
  fst (_convert_to_interactive "df-0" demo_formatted) = Return None ∧
  stdout (snd (_get_dataframe "df-0" demo_formatted))
  = ["Error: Runtime no longer has a reference to this dataframe, please re-run this cell and try again."].
Proof.
  assert ("df-0" ∉ dom (_noninteractive_df_refs demo_formatted)) as Hrefs.
  { apply not_elem_of_dom. reflexivity. }
  split; [reflexivity |]. split; [exact Hrefs |].
  destruct (missing_key_is_reported "df-0" demo_formatted eq_refl Hrefs)
    as (_ & Hconv & Hout & _).
  split; [by rewrite Hconv | exact Hout].
Defined.

Lemma retrieval_is_destructive_witness :
  forallb (λ c, negb (is_format c)) demo_retrievals = true ∧
  retrievals demo_url "df-1234" demo_retrievals demo_formatted ≤ 2.
Proof.
  split; [reflexivity |].
  exact (proj2 (retrieval_is_destructive demo_url "df-1234" demo_retrievals
                  demo_formatted eq_refl)).
Defined.

Lemma last_key_is_the_formatted_one_witness :
  heap demo !! 1%positive = Some demo_frame ∧
  fst (_get_last_dataframe_key demo_formatted) = Return (Some "df-1234") ∧
  fst (_get_last_dataframe_key (snd (_get_dataframe "df-1234" demo_formatted)))
  = Return None.
Proof.
  split; [reflexivity |].
  destruct (last_key_is_the_formatted_one demo_url "1234" 1%positive None demo
              demo_frame eq_refl)
    as (_ & _ & _ & Hkey & Hnone).
  split; [exact (f_equal fst Hkey) | exact (f_equal fst Hnone)].
Defined.


(** * More on the emitted HTML *)

(** X1. For every key and help URL, [_get_button_html] returns: the
    values it substitutes are not scanned for braces.  The button's HTML
    carries the icon, the help URL as the target of the link to the data
    table notebook, and the key in the two look-ups of the script, the
    one of the button and the one of the container. *)
Theorem button_html_embeds_arguments (url key : string) :
  ∃ button,
    _get_button_html url key = inr button ∧
    contains button _ICON_SVG ∧
    contains button ("href=" +:+ url +:+ ">data table notebook</a>'") ∧
    contains button
      ("document.querySelector('#" +:+ key +:+ " button.colab-df-convert');") ∧
    contains button
      ("const element = document.querySelector('#" +:+ key +:+ "');").
Proof.
  destruct (button_html_returns url key) as [button Hb].
  exists button. split; [done |].
  split; [by eapply button_contains_icon |].
  split; [| split; [| by eapply button_contains_query]].
  - unfold _get_button_html in Hb.
    pose proof (format_contains_embedded _ _ _ _ parse_button_template Hb
                  "href=" "data_table_url" ">data table notebook</a>'" url) as H.
    apply H; by vm_compute.
  - unfold _get_button_html in Hb.
    pose proof (format_contains_embedded _ _ _ _ parse_button_template Hb
                  "document.querySelector('#" "key"
                  " button.colab-df-convert');" key) as H.
    apply H; by vm_compute.
Qed.

(** X2. [_get_html] lays the HTML out in this order: the container
    with the key as its [id], the dataframe's own rendering, then the
    buttons, joined by line feeds, inside their [div].  It changes no
    state. *)
Theorem get_html_layout (dataframe : oid) (key : string) (buttons : list string)
    (s : State) (d : DataFrame) :
  heap s !! dataframe = Some d →
  _get_html dataframe key buttons s
  = (Return
       (nl +:+ "  <div id=" +:+ dq +:+ key +:+ dq +:+ " class=" +:+ dq +:+
          "colab-df-container" +:+ dq +:+ ">" +:+ nl +:+
        "    " +:+ df_html d +:+ nl +:+
        "    <div class=" +:+ dq +:+ "colab-df-buttons" +:+ dq +:+ ">" +:+ nl +:+
        "      " +:+ join nl buttons +:+ nl +:+
        "    </div>" +:+ nl +:+
        "  </div>" +:+ nl +:+
        "  "),
     s).
Proof.
  intros Hlive. unfold _get_html, _repr_html_, mbind, M_bind. rewrite Hlive.
  unfold format. rewrite parse_html_template. reflexivity.
Qed.

Lemma get_html_layout_witness :
  heap demo !! 1%positive = Some demo_frame ∧
  fst (_get_html 1%positive "df-1" ["<b>one</b>"; "<b>two</b>"] demo)
  = Return
      (nl +:+ "  <div id=" +:+ dq +:+ "df-1" +:+ dq +:+ " class=" +:+ dq +:+
         "colab-df-container" +:+ dq +:+ ">" +:+ nl +:+
       "    <table>t</table>" +:+ nl +:+
       "    <div class=" +:+ dq +:+ "colab-df-buttons" +:+ dq +:+ ">" +:+ nl +:+
       "      <b>one</b>" +:+ nl +:+ "<b>two</b>" +:+ nl +:+
       "    </div>" +:+ nl +:+
       "  </div>" +:+ nl +:+
       "  ").
Proof.
  split; [reflexivity |].
  exact (f_equal fst (get_html_layout 1%positive "df-1" ["<b>one</b>"; "<b>two</b>"]
                        demo demo_frame eq_refl)).
Defined.

(** * More on the formatter and the caches *)

Lemma formatted_keeps_live (key : string) (dataframe : oid) (d : DataFrame)
    (s : State) (o : oid) (d' : DataFrame) :
  heap s !! o = Some d' → heap (formatted key dataframe d s) !! o = Some d'.
Proof.
  intros Ho. rewrite formatted_heap, lookup_insert_ne; [done |].
  intros E. pose proof (copy_of_fresh s) as Hf. rewrite E in Hf. congruence.
Qed.

Lemma key_of_uuid_inj (u1 u2 : string) : u1 ≠ u2 → "df-" +:+ u1 ≠ "df-" +:+ u2.
Proof. intros Hne E. by apply String.app_inj in E. Qed.

Lemma dict_contains_single_ne {V} (key k : string) (v : V) :
  k ≠ key → PyDict.contains key [(k, v)] = false.
Proof.
  intros Hne. simpl. apply String.eqb_neq in Hne. by rewrite Hne.
Qed.

(** X3. An empty list of buttons is treated as no list: the
    formatter returns the same HTML and leaves the same state for
    [buttons=[]] as for [buttons=None], and the caller's empty list stays
    empty. *)
Theorem empty_buttons_as_none (url uuid4 : string) (dataframe : oid)
    (s : State) (d : DataFrame) :
  heap s !! dataframe = Some d →
  ∃ html s',
    _df_formatter_with_interactive_hint url uuid4 dataframe None s
    = (Return (html, None), s') ∧
    _df_formatter_with_interactive_hint url uuid4 dataframe (Some []) s
    = (Return (html, Some []), s').
Proof.
  intros Hlive.
  destruct (formatter_run url uuid4 dataframe None s d Hlive)
    as (b1 & h1 & Hb1 & Hh1 & Hrun1).
  destruct (formatter_run url uuid4 dataframe (Some []) s d Hlive)
    as (b2 & h2 & Hb2 & Hh2 & Hrun2).
  assert (b2 = b1) as -> by congruence.
  assert (h2 = h1) as ->.
  { unfold buttons_passed in *. simpl in *. congruence. }
  exists h1, (formatted ("df-" +:+ uuid4) dataframe d s). by split.
Qed.

Lemma empty_buttons_as_none_witness :
  heap demo !! 1%positive = Some demo_frame ∧
  ∃ html,
    fst (_df_formatter_with_interactive_hint demo_url "1234" 1%positive None demo)
    = Return (html, None) ∧
    fst (_df_formatter_with_interactive_hint demo_url "1234" 1%positive (Some []) demo)
    = Return (html, Some []).
Proof.
  split; [reflexivity |].
  destruct (empty_buttons_as_none demo_url "1234" 1%positive demo demo_frame eq_refl)
    as (html & s' & Hnone & Hempty).
  exists html. split; [exact (f_equal fst Hnone) | exact (f_equal fst Hempty)].
Defined.

(** X4. The formatter inserts into the caller's non-empty list in
    place, so a list passed to two calls piles the buttons up: after the
    second call it starts with the second button and then the first, and
    the HTML of the second call carries the first call's button, with the
    first call's key, after its own. *)
Theorem shared_buttons_list_piles_up (url u1 u2 : string) (dataframe : oid)
    (b : string) (bs : list string) (s : State) (d : DataFrame) :
  heap s !! dataframe = Some d →
  ∃ button1 html1 s1 button2 html2 s2,
    _get_button_html url ("df-" +:+ u1) = inr button1 ∧
    _get_button_html url ("df-" +:+ u2) = inr button2 ∧
    _df_formatter_with_interactive_hint url u1 dataframe (Some (b :: bs)) s
    = (Return (html1, Some (button1 :: b :: bs)), s1) ∧
    _df_formatter_with_interactive_hint url u2 dataframe
      (Some (button1 :: b :: bs)) s1
    = (Return (html2, Some (button2 :: button1 :: b :: bs)), s2) ∧
    contains html2 (button2 +:+ nl +:+ button1 +:+ nl +:+ join nl (b :: bs)) ∧
    contains html2
      ("onclick=" +:+ dq +:+ "convertToInteractive('" +:+ "df-" +:+ u1 +:+ "')" +:+ dq).
Proof.
  intros Hlive.
  destruct (formatter_run url u1 dataframe (Some (b :: bs)) s d Hlive)
    as (b1 & h1 & Hb1 & Hh1 & Hrun1).
  pose proof (formatted_keeps_live ("df-" +:+ u1) dataframe d s dataframe d Hlive)
    as Hlive1.
  destruct (formatter_run url u2 dataframe (Some (b1 :: b :: bs)) _ d Hlive1)
    as (b2 & h2 & Hb2 & Hh2 & Hrun2).
  exists b1, h1, (formatted ("df-" +:+ u1) dataframe d s), b2, h2,
    (formatted ("df-" +:+ u2) dataframe d (formatted ("df-" +:+ u1) dataframe d s)).
  assert (contains h2 (b2 +:+ nl +:+ b1 +:+ nl +:+ join nl (b :: bs))) as Hpile.
  { pose proof (html_contains_buttons _ _ _ _ Hh2) as Hc.
    unfold buttons_passed in Hc. simpl default in Hc.
    by rewrite !join_cons in Hc. }
  split_and!; [exact Hb1 | exact Hb2 | exact Hrun1 | exact Hrun2 | exact Hpile |].
  eapply contains_trans; [exact Hpile |].
  apply contains_app_r, contains_app_r, contains_app_l.
  exact (button_contains_onclick url ("df-" +:+ u1) b1 Hb1).
Qed.

Lemma shared_buttons_list_piles_up_witness :
  heap demo !! 1%positive = Some demo_frame ∧
  ∃ button1 button2 html1 html2 s1 s2,
    _df_formatter_with_interactive_hint demo_url "1" 1%positive
      (Some ["<b>mine</b>"]) demo
    = (Return (html1, Some [button1; "<b>mine</b>"]), s1) ∧
    _df_formatter_with_interactive_hint demo_url "2" 1%positive
      (Some [button1; "<b>mine</b>"]) s1
    = (Return (html2, Some [button2; button1; "<b>mine</b>"]), s2) ∧
    contains html2 (button2 +:+ nl +:+ button1 +:+ nl +:+ "<b>mine</b>").
Proof.
  split; [reflexivity |].
  destruct (shared_buttons_list_piles_up demo_url "1" "2" 1%positive "<b>mine</b>" []
              demo demo_frame eq_refl)
    as (b1 & h1 & s1 & b2 & h2 & s2 & _ & _ & Hrun1 & Hrun2 & Hpile & _).
  exists b1, b2, h1, h2, s1, s2.
  split; [exact Hrun1 |]. split; [exact Hrun2 | exact Hpile].
Defined.

Lemma enable_frame_rest (s : State) :
  let s' := snd (_enable_df_interactive_hint_formatter s) in
  _output_callbacks s' = _output_callbacks s ∧ stdout s' = stdout s.
Proof.
  destruct (shell s) as [sh|] eqn:Hsh; [| by rewrite enable_no_shell].
  destruct (_original_formatters s !! "text/html") as [saved|] eqn:Hs.
  { by rewrite (enable_already s sh Hsh saved). }
  destruct (formatters sh !! "text/html") as [pr|] eqn:Hpr.
  - by rewrite (enable_run s sh Hsh pr).
  - by rewrite (enable_no_formatter s sh Hsh).
Qed.

Lemma disable_frame_rest (s : State) :
  let s' := snd (_disable_df_interactive_hint_formatter s) in
  _output_callbacks s' = _output_callbacks s ∧ stdout s' = stdout s.
Proof.
  destruct (shell s) as [sh|] eqn:Hsh; [| by rewrite disable_no_shell].
  destruct (_original_formatters s !! "text/html") as [saved|] eqn:Hs.
  2: { by rewrite (disable_not_enabled s sh Hsh). }
  destruct (formatters sh !! "text/html") as [pr|] eqn:Hpr.
  - by rewrite (disable_run s sh Hsh pr saved).
  - by rewrite (disable_no_formatter s sh Hsh saved).
Qed.

Lemma get_dataframe_callbacks (key : string) (s : State) :
  _output_callbacks (snd (_get_dataframe key s)) = _output_callbacks s.
Proof.
  by destruct (get_dataframe_cases key s)
    as [(o & _ & ->) | [(o & _ & _ & ->) | (_ & _ & ->)]].
Qed.

Lemma formatted_callbacks (key : string) (dataframe : oid) (d : DataFrame)
    (s : State) :
  _output_callbacks s = ∅ ∨ _output_callbacks s = hint_callbacks →
  _output_callbacks (formatted key dataframe d s) = hint_callbacks.
Proof.
  intros Hcbs. unfold formatted. simpl.
  destruct Hcbs as [-> | ->].
  - rewrite bool_decide_eq_false_2; [by rewrite insert_empty |].
    rewrite dom_empty_L. apply not_elem_of_empty.
  - rewrite bool_decide_eq_true_2; [done |].
    apply elem_of_dom. unfold hint_callbacks. rewrite lookup_singleton_eq. eauto.
Qed.

Lemma exec_callbacks (url : string) (c : call) (s : State) :
  _output_callbacks s = ∅ ∨ _output_callbacks s = hint_callbacks →
  _output_callbacks (exec url c s) = ∅ ∨
  _output_callbacks (exec url c s) = hint_callbacks.
Proof.
  intros Hcbs. destruct c as [uuid4 df buttons|key|key| | | |dead|d']; simpl.
  - destruct (heap s !! df) as [d|] eqn:Hd.
    + destruct (formatter_run url uuid4 df buttons s d Hd) as (b & h & _ & _ & ->).
      right. by apply formatted_callbacks.
    + by rewrite formatter_dangling.
  - rewrite convert_to_interactive_eq. simpl. by rewrite get_dataframe_callbacks.
  - by rewrite get_dataframe_callbacks.
  - by rewrite get_last_dataframe_key_pure.
  - destruct (enable_frame_rest s) as [Hc _]. simpl in Hc. by rewrite Hc.
  - destruct (disable_frame_rest s) as [Hc _]. simpl in Hc. by rewrite Hc.
  - done.
  - done.
Qed.

Lemma run_callbacks (url : string) (calls : list call) (s : State) :
  _output_callbacks s = ∅ ∨ _output_callbacks s = hint_callbacks →
  _output_callbacks (run url calls s) = ∅ ∨
  _output_callbacks (run url calls s) = hint_callbacks.
Proof.
  revert s. induction calls as [|c calls IH]; intros s Hcbs; [done |].
  simpl. apply IH. by apply exec_callbacks.
Qed.

(** X5. The module registers its callback with the host once.
    After any sequence of calls from the initial state,
    [_output_callbacks] is empty or holds the one registration of
    [_convert_to_interactive] under ['convertToInteractive']; a formatting
    leaves it holding exactly that one, and a formatting that finds it
    there registers nothing. *)
Theorem callback_registered_once (url uuid4 : string) (calls : list call)
    (dataframe : oid) (buttons : option (list string)) (d : DataFrame) :
  let s := run url calls initial in
  let s' := snd (_df_formatter_with_interactive_hint url uuid4 dataframe buttons s) in
  (_output_callbacks s = ∅ ∨ _output_callbacks s = hint_callbacks) ∧
  (heap s !! dataframe = Some d → _output_callbacks s' = hint_callbacks) ∧
  ("convertToInteractive" ∈ dom (_output_callbacks s) →
   _output_callbacks s' = _output_callbacks s).
Proof.
  intros s s'.
  assert (_output_callbacks s = ∅ ∨ _output_callbacks s = hint_callbacks) as Hinv.
  { apply run_callbacks. by left. }
  split; [done |]. split.
  - intros Hlive. unfold s'.
    destruct (formatter_run url uuid4 dataframe buttons s d Hlive)
      as (b & h & _ & _ & ->).
    by apply formatted_callbacks.
  - intros Hin. unfold s'.
    destruct (heap s !! dataframe) as [d'|] eqn:Hd.
    + destruct (formatter_run url uuid4 dataframe buttons s d' Hd)
        as (b & h & _ & _ & ->).
      unfold formatted. simpl. by rewrite bool_decide_eq_true_2.
    + by rewrite formatter_dangling.
Qed.

Lemma callback_registered_once_witness :
  heap (run demo_url [Host_new_dataframe demo_frame] initial) !! 1%positive
  = Some demo_frame ∧
  _output_callbacks
    (snd (_df_formatter_with_interactive_hint demo_url "1234" 1%positive None
            (run demo_url [Host_new_dataframe demo_frame] initial)))
  = hint_callbacks.
Proof.
  split; [reflexivity |].
  exact (proj1 (proj2 (callback_registered_once demo_url "1234"
                         [Host_new_dataframe demo_frame] 1%positive None demo_frame))
           eq_refl).
Defined.

Section TwoFormats.

Variables (url u1 u2 : string) (df1 df2 : oid).
Variables (buttons1 buttons2 : option (list string)).
Variables (s : State) (d1 d2 : DataFrame).
Hypothesis Hlive1 : heap s !! df1 = Some d1.
Hypothesis Hlive2 : heap s !! df2 = Some d2.
Hypothesis Hkeys : u1 ≠ u2.

#[local] Abbreviation k1 := ("df-" +:+ u1) (only parsing).
#[local] Abbreviation k2 := ("df-" +:+ u2) (only parsing).

Lemma two_formats_state :
  snd (_df_formatter_with_interactive_hint url u2 df2 buttons2
         (snd (_df_formatter_with_interactive_hint url u1 df1 buttons1 s)))
  = formatted k2 df2 d2 (formatted k1 df1 d1 s).
Proof using Hlive1 Hlive2.
  destruct (formatter_run url u1 df1 buttons1 s d1 Hlive1) as (b & h & _ & _ & ->).
  cbn [snd].
  pose proof (formatted_keeps_live k1 df1 d1 s df2 d2 Hlive2) as Hl.
  by destruct (formatter_run url u2 df2 buttons2 _ d2 Hl) as (b' & h' & _ & _ & ->).
Qed.

Lemma two_formats_last :
  _last_noninteractive_df (formatted k2 df2 d2 (formatted k1 df1 d1 s))
  = [(k2, copy_of (formatted k1 df1 d1 s))].
Proof. done. Qed.

Lemma two_formats_refs_old :
  _noninteractive_df_refs (formatted k2 df2 d2 (formatted k1 df1 d1 s)) !! k1
  = Some df1.
Proof using Hkeys.
  rewrite !formatted_refs. rewrite lookup_insert_ne.
  - apply lookup_insert_eq.
  - apply key_of_uuid_inj. congruence.
Qed.

Lemma two_formats_old_not_last :
  PyDict.contains k1
    (_last_noninteractive_df (formatted k2 df2 d2 (formatted k1 df1 d1 s)))
  = false.
Proof using Hkeys.
  rewrite two_formats_last. apply dict_contains_single_ne.
  apply key_of_uuid_inj. congruence.
Qed.

End TwoFormats.

(** X6. Formatting a second dataframe takes the first one's copy out
    of the single-entry cache but leaves the first key in the weak-value
    cache.  A conversion under the first key then returns the first
    dataframe object itself, popped from the weak-value cache, and leaves
    the single-entry cache, which holds the second key, alone. *)
Theorem older_key_served_from_weak_cache (url u1 u2 : string) (df1 df2 : oid)
    (buttons1 buttons2 : option (list string)) (s : State) (d1 d2 : DataFrame) :
  heap s !! df1 = Some d1 →
  heap s !! df2 = Some d2 →
  u1 ≠ u2 →
  let s1 := snd (_df_formatter_with_interactive_hint url u1 df1 buttons1 s) in
  let s2 := snd (_df_formatter_with_interactive_hint url u2 df2 buttons2 s1) in
  _convert_to_interactive ("df-" +:+ u1) s2
  = (Return (Some (mkDataTable df1)), set_refs (delete ("df-" +:+ u1)) s2) ∧
  heap s2 !! df1 = Some d1 ∧
  PyDict.keys (_last_noninteractive_df s2) = ["df-" +:+ u2] ∧
  stdout s2 = stdout s.
Proof.
  intros Hlive1 Hlive2 Hkeys s1 s2.
  assert (s2 = formatted ("df-" +:+ u2) df2 d2 (formatted ("df-" +:+ u1) df1 d1 s))
    as -> by (by apply two_formats_state).
  split_and!; try done.
  - rewrite convert_to_interactive_eq.
    by rewrite (get_dataframe_refs _ _ df1
                  (two_formats_old_not_last u1 u2 df1 df2 s d1 d2 Hkeys)
                  (two_formats_refs_old u1 u2 df1 df2 s d1 d2 Hkeys)).
  - by do 2 apply formatted_keeps_live.
Qed.

Lemma older_key_served_from_weak_cache_witness :
  heap demo !! 1%positive = Some demo_frame ∧
  "1" ≠ "2" ∧
  fst (_convert_to_interactive "df-1"
         (snd (_df_formatter_with_interactive_hint demo_url "2" 1%positive None
                 (snd (_df_formatter_with_interactive_hint demo_url "1" 1%positive
                         None demo)))))
  = Return (Some (mkDataTable 1%positive)).
Proof.
  assert ("1" ≠ "2") as Hne by discriminate.
  split; [reflexivity |]. split; [exact Hne |].
  exact (f_equal fst
           (proj1 (older_key_served_from_weak_cache demo_url "1" "2" 1%positive
                     1%positive None None demo demo_frame demo_frame
                     eq_refl eq_refl Hne))).
Defined.

Lemma collect_refs (dead : gset oid) (s : State) :
  _noninteractive_df_refs (collect dead s)
  = filter (λ kv, snd kv ∉ dead ∖ strongly_held s) (_noninteractive_df_refs s).
Proof. done. Qed.

Lemma collect_heap (dead : gset oid) (s : State) :
  heap (collect dead s)
  = filter (λ kv, fst kv ∉ dead ∖ strongly_held s) (heap s).
Proof. done. Qed.

(** X7. The weak-value cache keeps nothing alive.  Once a second
    dataframe was formatted and the first one was collected, a conversion
    under the first key finds it in neither cache: it prints the error
    message, returns [None] and leaves the second key where it is. *)
Theorem collected_dataframe_is_gone (url u1 u2 : string) (df1 df2 : oid)
    (buttons1 buttons2 : option (list string)) (s : State) (d1 d2 : DataFrame)
    (dead : gset oid) :
  heap s !! df1 = Some d1 →
  heap s !! df2 = Some d2 →
  u1 ≠ u2 →
  df1 ∈ dead →
  let s1 := snd (_df_formatter_with_interactive_hint url u1 df1 buttons1 s) in
  let s2 := snd (_df_formatter_with_interactive_hint url u2 df2 buttons2 s1) in
  let s3 := collect dead s2 in
  _convert_to_interactive ("df-" +:+ u1) s3
  = (Return None, set_stdout (λ out, out ++ [no_reference_message]) s3) ∧
  heap s3 !! df1 = None ∧
  PyDict.keys (_last_noninteractive_df s3) = ["df-" +:+ u2].
Proof.
  intros Hlive1 Hlive2 Hkeys Hdead s1 s2 s3.
  assert (s2 = formatted ("df-" +:+ u2) df2 d2 (formatted ("df-" +:+ u1) df1 d1 s))
    as Hs2 by (by apply two_formats_state).
  assert (df1 ∈ dead ∖ strongly_held s2) as Hfreed.
  { apply elem_of_difference. split; [done |].
    rewrite Hs2. unfold strongly_held. rewrite two_formats_last.
    rewrite elem_of_list_to_set. intros E%list_elem_of_singleton.
    change (df1 = copy_of (formatted ("df-" +:+ u1) df1 d1 s)) in E.
    pose proof (copy_of_fresh (formatted ("df-" +:+ u1) df1 d1 s)) as Hf.
    rewrite <- E in Hf.
    by rewrite (formatted_keeps_live _ _ _ _ _ _ Hlive1) in Hf. }
  assert (_noninteractive_df_refs s3 !! ("df-" +:+ u1) = None) as Hrefs.
  { unfold s3. rewrite collect_refs. apply map_lookup_filter_None. right.
    intros o Ho. cbn [snd]. rewrite Hs2 in Ho.
    rewrite (two_formats_refs_old u1 u2 df1 df2 s d1 d2 Hkeys) in Ho.
    injection Ho as <-. auto. }
  assert (PyDict.contains ("df-" +:+ u1) (_last_noninteractive_df s3) = false)
    as Hlast.
  { unfold s3. rewrite collect_last, Hs2.
    by apply two_formats_old_not_last. }
  split_and!.
  - rewrite convert_to_interactive_eq.
    by rewrite (get_dataframe_none _ _ Hlast Hrefs).
  - unfold s3. rewrite collect_heap. apply map_lookup_filter_None. right.
    intros d' _. cbn [fst]. auto.
  - unfold s3. by rewrite collect_last, Hs2.
Qed.

Lemma collected_dataframe_is_gone_witness :
  heap demo !! 1%positive = Some demo_frame ∧
  "1" ≠ "2" ∧
  (1%positive ∈ ({[1%positive]} : gset oid)) ∧
  fst (_convert_to_interactive "df-1"
         (collect {[1%positive]}
            (snd (_df_formatter_with_interactive_hint demo_url "2" 1%positive None
                    (snd (_df_formatter_with_interactive_hint demo_url "1" 1%positive
                            None demo))))))
  = Return None.
Proof.
  assert ("1" ≠ "2") as Hne by discriminate.
  assert (1%positive ∈ ({[1%positive]} : gset oid)) as Hin
    by (by apply elem_of_singleton).
  split; [reflexivity |]. split; [exact Hne |]. split; [exact Hin |].
  exact (f_equal fst
           (proj1 (collected_dataframe_is_gone demo_url "1" "2" 1%positive
                     1%positive None None demo demo_frame demo_frame {[1%positive]}
                     eq_refl eq_refl Hne Hin))).
Defined.

(** X8. After a formatting, three retrievals under its key in a row
    return the shallow copy, then the displayed object itself, then
    [None]: only the third prints the error message, and it finds both
    caches without the key. *)
Theorem three_retrievals_in_a_row (url uuid4 : string) (dataframe : oid)
    (buttons : option (list string)) (s : State) (d : DataFrame) :
  heap s !! dataframe = Some d →
  let key := "df-" +:+ uuid4 in
  let s1 := snd (_df_formatter_with_interactive_hint url uuid4 dataframe buttons s) in
  ∃ copy sa sb sc,
    copy ≠ dataframe ∧
    _get_dataframe key s1 = (Return (Some copy), sa) ∧
    _get_dataframe key sa = (Return (Some dataframe), sb) ∧
    _get_dataframe key sb = (Return None, sc) ∧
    stdout sb = stdout s ∧
    stdout sc = stdout s ++ [no_reference_message] ∧
    _last_noninteractive_df sc = [] ∧
    _noninteractive_df_refs sc !! key = None.
Proof.
  intros Hlive key s1.
  destruct (formatter_run url uuid4 dataframe buttons s d Hlive)
    as (b & h & _ & _ & Hrun).
  assert (s1 = formatted key dataframe d s) as -> by (unfold s1; by rewrite Hrun).
  set (sa := set_last (PyDict.remove key) (formatted key dataframe d s)).
  set (sb := set_refs (delete key) sa).
  set (sc := set_stdout (λ out, out ++ [no_reference_message]) sb).
  assert (_last_noninteractive_df sa = []) as Hla.
  { unfold sa. simpl. apply dict_remove_single. }
  exists (copy_of s), sa, sb, sc.
  split_and!; try done.
  - intros E. pose proof (copy_of_fresh s) as Hf. rewrite E in Hf. congruence.
  - apply get_dataframe_last. rewrite formatted_last. apply dict_get_single.
  - apply get_dataframe_refs.
    + by rewrite Hla.
    + unfold sa. simpl. apply lookup_insert_eq.
  - apply get_dataframe_none.
    + change (PyDict.contains key (_last_noninteractive_df sa) = false).
      by rewrite Hla.
    + unfold sb. simpl. apply lookup_delete_eq.
  - unfold sc, sb. simpl. apply lookup_delete_eq.
Qed.

Lemma three_retrievals_in_a_row_witness :
  heap demo !! 1%positive = Some demo_frame ∧
  ∃ copy sa sb,
    _get_dataframe "df-1234" demo_formatted = (Return (Some copy), sa) ∧
    _get_dataframe "df-1234" sa = (Return (Some 1%positive), sb) ∧
    fst (_get_dataframe "df-1234" sb) = Return None.
Proof.
  split; [reflexivity |].
  destruct (three_retrievals_in_a_row demo_url "1234" 1%positive None demo
              demo_frame eq_refl)
    as (copy & sa & sb & sc & _ & H1 & H2 & H3 & _).
  exists copy, sa, sb.
  split; [exact H1 |]. split; [exact H2 | exact (f_equal fst H3)].
Defined.


(** * More on enabling and disabling *)

Section RestoredFacts.

Variables (f : BaseFormatter) (saved : option Callable).

Lemma restored_deferred :
  deferred_printers (restored saved f) !! "pandas.core.frame.DataFrame" = saved.
Proof.
  unfold restored, IPython.pop, IPython.for_type_by_name.
  destruct (deferred_printers f !! "pandas.core.frame.DataFrame") eqn:HD;
    destruct saved; cbn [snd deferred_printers type_printers].
  - apply lookup_insert_eq.
  - apply lookup_delete_eq.
  - apply lookup_insert_eq.
  - done.
Qed.

Lemma restored_type :
  type_printers (restored saved f) !! "pandas.core.frame.DataFrame"
  = match deferred_printers f !! "pandas.core.frame.DataFrame" with
    | Some _ => type_printers f !! "pandas.core.frame.DataFrame"
    | None => None
    end.
Proof.
  unfold restored, IPython.pop, IPython.for_type_by_name.
  destruct (deferred_printers f !! "pandas.core.frame.DataFrame") eqn:HD;
    destruct saved; cbn [snd deferred_printers type_printers]; try done;
    apply lookup_delete_eq.
Qed.

Lemma restored_other (typ : string) :
  typ ≠ "pandas.core.frame.DataFrame" →
  type_printers (restored saved f) !! typ = type_printers f !! typ ∧
  deferred_printers (restored saved f) !! typ = deferred_printers f !! typ.
Proof.
  intros Hne. unfold restored, IPython.pop, IPython.for_type_by_name.
  destruct (deferred_printers f !! "pandas.core.frame.DataFrame") eqn:HD;
    destruct saved; cbn [snd deferred_printers type_printers];
    rewrite ?lookup_insert_ne, ?lookup_delete_ne by done; done.
Qed.

End RestoredFacts.

Lemma printer_of_enabled (s : State) (sh : Shell) (f : BaseFormatter)
    (mime typ : string) :
  shell s = Some sh →
  formatters sh !! "text/html" = Some f →
  mime ≠ "text/html" ∨ typ ≠ "pandas.core.frame.DataFrame" →
  printer_of (enabled f s) mime typ = printer_of s mime typ.
Proof.
  intros Hsh Hf Hother. unfold printer_of, enabled.
  rewrite (enabled_as_shell s sh f Hsh), Hsh. cbn [mbind option_bind formatters].
  destruct (decide (mime = "text/html")) as [-> | Hm].
  - rewrite lookup_insert_eq, Hf. cbn [mbind option_bind].
    destruct Hother as [? | Ht]; [done |].
    unfold hint_deferred. cbn [type_printers deferred_printers].
    by rewrite lookup_insert_ne.
  - by rewrite lookup_insert_ne.
Qed.

Lemma printer_of_disabled (s : State) (sh : Shell) (f : BaseFormatter)
    (saved : option Callable) (mime typ : string) :
  shell s = Some sh →
  formatters sh !! "text/html" = Some f →
  mime ≠ "text/html" ∨ typ ≠ "pandas.core.frame.DataFrame" →
  printer_of (disabled f saved s) mime typ = printer_of s mime typ.
Proof.
  intros Hsh Hf Hother. unfold printer_of, disabled.
  rewrite (with_html_formatter_shell sh _ (set_originals _ s) Hsh), Hsh.
  cbn [mbind option_bind formatters].
  destruct (decide (mime = "text/html")) as [-> | Hm].
  - rewrite lookup_insert_eq, Hf. cbn [mbind option_bind].
    destruct Hother as [? | Ht]; [done |].
    by destruct (restored_other f saved typ Ht) as [-> ->].
  - by rewrite lookup_insert_ne.
Qed.

(** X9. In an enabled state, disabling pops the registration of
    dataframes by name, the deferred printer if there is one and
    otherwise the one of the class, then registers the saved printer as
    the deferred one, or nothing when [None] was saved; it forgets the
    saved printer and touches no other printer.  So when both registries
    held a printer for dataframes, the one of the class stays and remains
    the printer a display finds, whatever was saved. *)
Theorem disable_restores_saved_printer (bases : list string) (s : State)
    (sh : Shell) (f : BaseFormatter) (saved : option Callable) :
  shell s = Some sh →
  formatters sh !! "text/html" = Some f →
  _original_formatters s !! "text/html" = Some saved →
  ∃ s' f',
    _disable_df_interactive_hint_formatter s = (Return tt, s') ∧
    html_formatter s' = Some f' ∧
    _original_formatters s' = delete "text/html" (_original_formatters s) ∧
    (∀ mime typ,
       mime ≠ "text/html" ∨ typ ≠ "pandas.core.frame.DataFrame" →
       printer_of s' mime typ = printer_of s mime typ) ∧
    deferred_printers f' !! "pandas.core.frame.DataFrame" = saved ∧
    type_printers f' !! "pandas.core.frame.DataFrame"
    = match deferred_printers f !! "pandas.core.frame.DataFrame" with
      | Some _ => type_printers f !! "pandas.core.frame.DataFrame"
      | None => None
      end ∧
    (∀ fn, saved = Some fn → registered_printer s' = Some fn) ∧
    (∀ p q,
       type_printers f !! "pandas.core.frame.DataFrame" = Some p →
       deferred_printers f !! "pandas.core.frame.DataFrame" = Some q →
       effective_printer bases s' = Some p).
Proof.
  intros Hsh Hf Hsaved.
  exists (disabled f saved s), (restored saved f).
  assert (html_formatter (disabled f saved s) = Some (restored saved f)) as Hfmt.
  { unfold html_formatter, disabled.
    rewrite (with_html_formatter_shell sh _ (set_originals _ s) Hsh).
    cbn [mbind option_bind formatters]. apply lookup_insert_eq. }
  split_and!.
  - by apply (disable_run s sh).
  - exact Hfmt.
  - done.
  - intros mime typ Hother. by apply (printer_of_disabled s sh).
  - apply restored_deferred.
  - apply restored_type.
  - intros fn ->. unfold registered_printer. rewrite Hfmt. cbn [mbind option_bind].
    unfold IPython.lookup_by_type_name. by rewrite restored_deferred.
  - intros p q HT HD. unfold effective_printer. rewrite Hfmt.
    cbn [mbind option_bind IPython.lookup_by_type_class].
    by rewrite restored_type, HD, HT.
Qed.

Lemma disable_restores_saved_printer_witness :
  shell (with_html_formatter
           (mkBaseFormatter
              {["pandas.core.frame.DataFrame" := Fn_df_formatter_with_interactive_hint]}
              {["pandas.core.frame.DataFrame" := Foreign 2]})
           (set_originals <["text/html" := None]> demo_notebook))
  = Some (mkShell
            {["text/html" :=
                mkBaseFormatter
                  {["pandas.core.frame.DataFrame" :=
                      Fn_df_formatter_with_interactive_hint]}
                  {["pandas.core.frame.DataFrame" := Foreign 2]}]}) ∧
  effective_printer []
    (snd (_disable_df_interactive_hint_formatter
            (with_html_formatter
               (mkBaseFormatter
                  {["pandas.core.frame.DataFrame" :=
                      Fn_df_formatter_with_interactive_hint]}
                  {["pandas.core.frame.DataFrame" := Foreign 2]})
               (set_originals <["text/html" := None]> demo_notebook))))
  = Some Fn_df_formatter_with_interactive_hint.
Proof.
  assert (shell (with_html_formatter
                   (mkBaseFormatter
                      {["pandas.core.frame.DataFrame" :=
                          Fn_df_formatter_with_interactive_hint]}
                      {["pandas.core.frame.DataFrame" := Foreign 2]})
                   (set_originals <["text/html" := None]> demo_notebook))
          = Some (mkShell
                    {["text/html" :=
                        mkBaseFormatter
                          {["pandas.core.frame.DataFrame" :=
                              Fn_df_formatter_with_interactive_hint]}
                          {["pandas.core.frame.DataFrame" := Foreign 2]}]}))
    as Hsh.
  { vm_compute. reflexivity. }
  split; [exact Hsh |].
  destruct (disable_restores_saved_printer [] _ _ _ None Hsh
              (lookup_singleton_eq _ _) eq_refl)
    as (s' & f' & Hdis & _ & _ & _ & _ & _ & _ & Hkept).
  rewrite Hdis. cbn [snd].
  exact (Hkept _ _ (lookup_singleton_eq _ _) (lookup_singleton_eq _ _)).
Defined.

(** X10. Enabling and disabling touch nothing but the dataframe
    printer of the [text/html] formatter and the [text/html] entry of
    [_original_formatters]: the heap, the two caches, the registered
    callbacks, what was printed, every other saved entry and every other
    printer of the shell are as before, whether the call returns or
    raises. *)
Theorem registration_touches_only_its_printer (s : State) :
  let touched s' :=
    heap s' = heap s ∧
    _noninteractive_df_refs s' = _noninteractive_df_refs s ∧
    _last_noninteractive_df s' = _last_noninteractive_df s ∧
    _output_callbacks s' = _output_callbacks s ∧
    stdout s' = stdout s ∧
    (∀ k, k ≠ "text/html" → _original_formatters s' !! k = _original_formatters s !! k) ∧
    (∀ mime typ,
       mime ≠ "text/html" ∨ typ ≠ "pandas.core.frame.DataFrame" →
       printer_of s' mime typ = printer_of s mime typ) in
  touched (snd (_enable_df_interactive_hint_formatter s)) ∧
  touched (snd (_disable_df_interactive_hint_formatter s)).
Proof.
  intros touched.
  assert (touched s) as Hsame by (by repeat split).
  assert (∀ sh printers,
            shell s = Some sh → formatters sh !! "text/html" = Some printers →
            touched (enabled printers s)) as Hen.
  { intros sh printers Hsh Hpr. repeat split; try done.
    - intros k Hk. unfold enabled. simpl. by rewrite lookup_insert_ne.
    - intros mime typ Hother. by apply (printer_of_enabled s sh). }
  assert (∀ sh printers saved,
            shell s = Some sh → formatters sh !! "text/html" = Some printers →
            touched (disabled printers saved s)) as Hdis.
  { intros sh printers saved Hsh Hpr. repeat split; try done.
    - intros k Hk. unfold disabled. simpl. by rewrite lookup_delete_ne.
    - intros mime typ Hother. by apply (printer_of_disabled s sh). }
  split.
  - destruct (shell s) as [sh|] eqn:Hsh; [| by rewrite enable_no_shell].
    destruct (_original_formatters s !! "text/html") as [saved|] eqn:Hs.
    { by rewrite (enable_already s sh Hsh saved). }
    destruct (formatters sh !! "text/html") as [pr|] eqn:Hpr.
    + rewrite (enable_run s sh Hsh pr) by done. by apply (Hen sh).
    + by rewrite (enable_no_formatter s sh Hsh).
  - destruct (shell s) as [sh|] eqn:Hsh; [| by rewrite disable_no_shell].
    destruct (_original_formatters s !! "text/html") as [saved|] eqn:Hs.
    2: { by rewrite (disable_not_enabled s sh Hsh). }
    destruct (formatters sh !! "text/html") as [pr|] eqn:Hpr.
    + rewrite (disable_run s sh Hsh pr saved) by done. by apply (Hdis sh).
    + by rewrite (disable_no_formatter s sh Hsh saved).
Qed.

(** X11. The guards of the two registration functions.  Without a
    shell both return at once; with the hint already enabled, enabling
    returns at once, so it does not register the hint formatter again
    over a printer someone else put there since; with the hint not
    enabled, disabling returns at once.  In each case nothing changes. *)
Theorem registration_guards (s : State) :
  (shell s = None →
   _enable_df_interactive_hint_formatter s = (Return tt, s) ∧
   _disable_df_interactive_hint_formatter s = (Return tt, s)) ∧
  ("text/html" ∈ dom (_original_formatters s) →
   _enable_df_interactive_hint_formatter s = (Return tt, s)) ∧
  ("text/html" ∉ dom (_original_formatters s) →
   _disable_df_interactive_hint_formatter s = (Return tt, s)).
Proof.
  split_and!.
  - intros Hsh. split; [by apply enable_no_shell | by apply disable_no_shell].
  - intros [saved Hsaved]%elem_of_dom.
    destruct (shell s) as [sh|] eqn:Hsh.
    + by apply (enable_already s sh Hsh saved).
    + by apply enable_no_shell.
  - intros Hfree%not_elem_of_dom.
    destruct (shell s) as [sh|] eqn:Hsh.
    + by apply (disable_not_enabled s sh).
    + by apply disable_no_shell.
Qed.

Lemma registration_guards_witness :
  ("text/html" ∈ dom (_original_formatters (enable_times 1 demo_notebook))) ∧
  _enable_df_interactive_hint_formatter (enable_times 1 demo_notebook)
  = (Return tt, enable_times 1 demo_notebook).
Proof.
  assert ("text/html" ∈ dom (_original_formatters (enable_times 1 demo_notebook)))
    as Hin.
  { apply elem_of_dom. eexists. reflexivity. }
  split; [exact Hin |].
  exact (proj1 (proj2 (registration_guards (enable_times 1 demo_notebook))) Hin).
Defined.

(** * The caches hold live objects *)

Lemma caches_live_initial : caches_live initial.
Proof.
  split.
  - intros k o H. simpl in H. by rewrite lookup_empty in H.
  - intros o H. simpl in H. by apply elem_of_nil in H.
Qed.

Lemma dict_remove_values {V} (key : string) (d : PyDict.dict V) (v : V) :
  v ∈ PyDict.values (PyDict.remove key d) → v ∈ PyDict.values d.
Proof.
  unfold PyDict.values, PyDict.remove.
  intros ([k v'] & -> & Hin)%list_elem_of_fmap.
  apply list_elem_of_filter in Hin as [_ Hin].
  apply list_elem_of_fmap. by exists (k, v').
Qed.

Lemma get_dataframe_live (key : string) (s : State) :
  caches_live s → caches_live (snd (_get_dataframe key s)).
Proof.
  intros [Hrefs Hlast].
  destruct (get_dataframe_cases key s)
    as [(o & _ & ->) | [(o & _ & _ & ->) | (_ & _ & ->)]]; simpl; split; simpl;
    try done.
  - intros o' Ho'. by apply Hlast, (dict_remove_values key).
  - intros k o' [_ Ho']%lookup_delete_Some. by eapply Hrefs.
Qed.

Lemma formatted_live (key : string) (dataframe : oid) (d : DataFrame) (s : State) :
  heap s !! dataframe = Some d →
  caches_live s → caches_live (formatted key dataframe d s).
Proof.
  intros Hlive [Hrefs Hlast]. split.
  - intros k o. rewrite formatted_refs.
    intros [[_ <-] | [_ Ho]]%lookup_insert_Some.
    + rewrite (formatted_keeps_live _ _ _ _ _ _ Hlive). eauto.
    + destruct (Hrefs k o Ho) as [d' Hd'].
      rewrite (formatted_keeps_live _ _ _ _ _ _ Hd'). eauto.
  - intros o. rewrite formatted_last.
    intros ->%list_elem_of_singleton.
    rewrite formatted_heap. cbn [snd]. rewrite lookup_insert_eq. eauto.
Qed.

Lemma collect_live (dead : gset oid) (s : State) :
  caches_live s → caches_live (collect dead s).
Proof.
  intros [Hrefs Hlast]. split.
  - intros k o. rewrite collect_refs, collect_heap.
    intros [Ho Hkeep]%map_lookup_filter_Some. cbn [snd] in Hkeep.
    destruct (Hrefs k o Ho) as [d Hd]. exists d.
    by apply map_lookup_filter_Some.
  - intros o. rewrite collect_last, collect_heap. intros Ho.
    destruct (Hlast o Ho) as [d Hd]. exists d.
    apply map_lookup_filter_Some. split; [done |]. cbn [fst].
    intros [_ Hnot]%elem_of_difference. apply Hnot.
    unfold strongly_held. by apply elem_of_list_to_set.
Qed.

Lemma new_dataframe_live (d : DataFrame) (s : State) :
  caches_live s → caches_live (snd (new_dataframe d s)).
Proof.
  intros [Hrefs Hlast]. split.
  - intros k o Ho. destruct (Hrefs k o Ho) as [d' Hd'].
    rewrite (new_dataframe_keeps s d o d' Hd'). eauto.
  - intros o Ho. destruct (Hlast o Ho) as [d' Hd'].
    rewrite (new_dataframe_keeps s d o d' Hd'). eauto.
Qed.

Lemma exec_live (url : string) (c : call) (s : State) :
  caches_live s → caches_live (exec url c s).
Proof.
  intros Hinv. destruct c as [uuid4 df buttons|key|key| | | |dead|d']; simpl.
  - destruct (heap s !! df) as [d|] eqn:Hd.
    + destruct (formatter_run url uuid4 df buttons s d Hd) as (b & h & _ & _ & ->).
      by apply formatted_live.
    + by rewrite formatter_dangling.
  - rewrite convert_to_interactive_eq. by apply get_dataframe_live.
  - by apply get_dataframe_live.
  - by rewrite get_last_dataframe_key_pure.
  - destruct (enable_frame s) as (Hh & Hr & Hl). simpl in *.
    unfold caches_live. by rewrite Hh, Hr, Hl.
  - destruct (disable_frame s) as (Hh & Hr & Hl). simpl in *.
    unfold caches_live. by rewrite Hh, Hr, Hl.
  - by apply collect_live.
  - by apply new_dataframe_live.
Qed.

Lemma run_live (url : string) (calls : list call) (s : State) :
  caches_live s → caches_live (run url calls s).
Proof.
  revert s. induction calls as [|c calls IH]; intros s Hinv; [done |].
  simpl. by apply IH, exec_live.
Qed.

(** X12. Whatever calls were made since the module was loaded,
    formatting, retrievals, registration, the host creating dataframes and
    collecting garbage, every object that one of the two caches refers to
    is alive, and so every successful retrieval hands back a live object,
    not a dangling one. *)
Theorem retrieved_dataframe_is_live (url : string) (calls : list call) :
  let s := run url calls initial in
  caches_live s ∧
  ∀ key o s',
    _get_dataframe key s = (Return (Some o), s') → is_Some (heap s' !! o).
Proof.
  intros s.
  assert (caches_live s) as Hinv by apply run_live, caches_live_initial.
  split; [done |]. intros key o s' Hget. destruct Hinv as [Hrefs Hlast].
  destruct (get_dataframe_cases key s)
    as [(o' & Ho & E) | [(o' & _ & Hr & E) | (_ & _ & E)]];
    rewrite E in Hget; [| | done]; injection Hget as <- <-; simpl.
  - apply Hlast. clear -Ho.
    induction (_last_noninteractive_df s) as [|[k v] l IH]; [done |].
    simpl in *. destruct (String.eqb k key).
    + injection Ho as ->. apply list_elem_of_here.
    + apply list_elem_of_further, IH, Ho.
  - by eapply Hrefs.
Qed.

(** * What retrieval and formatting leave alone *)

Lemma dict_get_remove_ne {V} (key k : string) (d : PyDict.dict V) :
  k ≠ key → PyDict.get key (PyDict.remove k d) = PyDict.get key d.
Proof.
  intros Hne. induction d as [|[k' v] d IH]; [done |].
  unfold PyDict.remove in *. rewrite filter_cons. simpl.
  destruct (decide (k' ≠ k)) as [Hk | Hk]; simpl.
  - by rewrite IH.
  - apply dec_stable in Hk. subst k'.
    apply String.eqb_neq in Hne. by rewrite Hne.
Qed.

(** X13. A retrieval under one key, successful or not, leaves every
    other key where it is in both caches, and never touches the heap, the
    registered callbacks, the saved printers or the shell.  It prints
    exactly when it returns [None]. *)
Theorem retrieval_touches_only_its_key (key : string) (s : State) :
  let s' := snd (_get_dataframe key s) in
  (∀ k, k ≠ key →
        PyDict.get k (_last_noninteractive_df s') = PyDict.get k (_last_noninteractive_df s) ∧
        _noninteractive_df_refs s' !! k = _noninteractive_df_refs s !! k) ∧
  heap s' = heap s ∧
  _output_callbacks s' = _output_callbacks s ∧
  _original_formatters s' = _original_formatters s ∧
  shell s' = shell s ∧
  (stdout s' = stdout s ∧ (∃ o, fst (_get_dataframe key s) = Return (Some o)) ∨
   stdout s' = stdout s ++ [no_reference_message] ∧
   fst (_get_dataframe key s) = Return None) ∧
  snd (_convert_to_interactive key s) = s'.
Proof.
  intros s'. unfold s'. rewrite convert_to_interactive_eq.
  destruct (get_dataframe_cases key s)
    as [(o & _ & ->) | [(o & _ & _ & ->) | (_ & _ & ->)]]; simpl;
    split_and!; try done.
  - intros k Hk. split; [| done]. apply dict_get_remove_ne. congruence.
  - left. eauto.
  - intros k Hk. split; [done |]. apply lookup_delete_ne. congruence.
  - left. eauto.
  - by right.
Qed.

(** X14. A formatting of a live dataframe never prints and touches
    neither the saved printers nor the shell.  In the weak-value cache it
    adds no key but its own, and it takes out no other key whose object
    the single-entry cache was not holding.  Apart from what the
    single-entry cache was holding, whose last reference the formatting
    drops, every object alive before is alive after, with the data it
    had. *)
Theorem formatting_touches_only_its_key (url uuid4 : string) (dataframe : oid)
    (buttons : option (list string)) (s : State) (d : DataFrame) :
  heap s !! dataframe = Some d →
  let s' := snd (_df_formatter_with_interactive_hint url uuid4 dataframe buttons s) in
  stdout s' = stdout s ∧
  _original_formatters s' = _original_formatters s ∧
  shell s' = shell s ∧
  (∀ k, k ≠ "df-" +:+ uuid4 →
        _noninteractive_df_refs s !! k = None →
        _noninteractive_df_refs s' !! k = None) ∧
  (∀ k o, k ≠ "df-" +:+ uuid4 →
          _noninteractive_df_refs s !! k = Some o →
          o ∉ strongly_held s →
          _noninteractive_df_refs s' !! k = Some o) ∧
  (∀ o d', heap s !! o = Some d' →
           o ∉ strongly_held s →
           heap s' !! o = Some d').
Proof.
  intros Hlive s'. unfold s'.
  destruct (formatter_run url uuid4 dataframe buttons s d Hlive)
    as (b & h & _ & _ & ->).
  cbn [snd]. split_and!; try done.
  - intros k Hk Hnone. rewrite formatted_refs. by rewrite lookup_insert_ne.
  - intros k o Hk Hsome _. rewrite formatted_refs. by rewrite lookup_insert_ne.
  - intros o d' Ho _. by apply formatted_keeps_live.
Qed.

Lemma formatting_touches_only_its_key_witness :
  heap demo_formatted !! 1%positive = Some demo_frame ∧
  ("df-1234" ≠ "df-" +:+ "5678") ∧
  _noninteractive_df_refs demo_formatted !! "df-1234" = Some 1%positive ∧
  (1%positive ∉ strongly_held demo_formatted) ∧
  _noninteractive_df_refs
    (snd (_df_formatter_with_interactive_hint demo_url "5678" 1%positive None
            demo_formatted)) !! "df-1234"
  = Some 1%positive.
Proof.
  assert ("df-1234" ≠ "df-" +:+ "5678") as Hne by discriminate.
  assert (1%positive ∉ strongly_held demo_formatted) as Hfree.
  { intros Hin. apply elem_of_list_to_set in Hin.
    vm_compute in Hin. apply list_elem_of_singleton in Hin. discriminate. }
  split; [reflexivity |]. split; [exact Hne |]. split; [reflexivity |].
  split; [exact Hfree |].
  destruct (formatting_touches_only_its_key demo_url "5678" 1%positive None
              demo_formatted demo_frame eq_refl)
    as (_ & _ & _ & _ & Hrefs & _).
  exact (Hrefs "df-1234" 1%positive Hne eq_refl Hfree).
Defined.
